(** * Credential lifecycle of the Google Calendar MCP server

    A shallow embedding of [src/index.ts]: the helper [loadSavedTokens]
    (load, expiry check, proactive refresh, persistence), the handler it
    registers for the OAuth client's token-update notification, the
    tool-call handler with its authentication gate, and [main].

    Everything the program reaches outside its own file (the file system,
    the clock, the OAuth client's refresh call, the calendar API, and the
    classes [TokenManager] and [AuthServer], whose sources are separate
    modules) is represented by explicit state, by recorded events, or by
    section variables.  [main] and the tool-call handler load and validate
    tokens through [TokenManager]; [loadSavedTokens] below is the helper of
    that name which [index.ts] defines itself. *)

From stdpp Require Import gmap strings list fin_maps pretty.

Local Open Scope Z_scope.

(** ** JavaScript values as the program meets them *)

Module JS.

(** A parsed JSON document.  Numbers are integers: the only number the
    program computes with is [expiry_date], a count of milliseconds. *)
#[warnings="-register-all"] Inductive json : Type :=
| JNull
| JBool (b : bool)
| JNum (n : Z)
| JStr (s : string)
| JArr (items : list json)
| JObj (fields : gmap string json).

(** A value read from a property is a [json] or [undefined]. *)
Abbreviation jsval := (option json).
Abbreviation undefined := (@None json).

(** An object built in memory; a property may hold [undefined]. *)
Abbreviation jsobj := (gmap string (option json)).

Inductive exn : Type :=
| Error (message : string)      (* [new Error(message)] *)
| TypeError                     (* property read on [null] or [undefined] *)
| SyntaxError                   (* [JSON.parse] on text that is not JSON *)
| SystemError (code : string)   (* a rejected [fs] call *)
| GaxiosError                   (* a rejected request to the provider *)
| ZodError.                     (* schema validation of tool arguments *)

Definition truthy_json (v : json) : bool :=
  match v with
  | JNull => false
  | JBool b => b
  | JNum n => negb (n =? 0)
  | JStr s => negb (String.eqb s EmptyString)
  | JArr _ | JObj _ => true
  end.

Definition truthy (v : jsval) : bool :=
  match v with Some j => truthy_json j | None => false end.

Definition typeof (v : json) : string :=
  match v with
  | JNull | JArr _ | JObj _ => "object"
  | JBool _ => "boolean"
  | JNum _ => "number"
  | JStr _ => "string"
  end.

Definition indexed {A} (f : A → json) (l : list A) : gmap string json :=
  list_to_map (imap (λ i x, (pretty i, f x)) l).

(** The own enumerable properties of a value, which is what the spread
    [{...v}] copies: the fields of an object, the elements of an array
    and the characters of a string under their indices, nothing for the
    other primitives. *)
Definition own_props (v : json) : gmap string json :=
  match v with
  | JObj m => m
  | JArr l => indexed id l
  | JStr s => indexed (λ c, JStr (String c EmptyString)) (String.list_ascii_of_string s)
  | JNull | JBool _ | JNum _ => ∅
  end.

(** [v.k] for the property names the program reads ([expiry_date],
    [refresh_token], [installed], ...), none of which is inherited:
    [null] has no properties at all, every other value answers from its
    own ones. *)
Definition prop (v : json) (k : string) : exn + jsval :=
  match v with
  | JNull => inl TypeError
  | _ => inr (own_props v !! k)
  end.

(** [o.k] on an in-memory object. *)
Definition field (o : jsobj) (k : string) : jsval := o !! k ≫= id.

(** A parsed document seen as an in-memory object. *)
Definition spread (v : json) : jsobj := Some <$> own_props v.

(** [JSON.stringify(o, null, 2)] followed by a later [JSON.parse]:
    properties holding [undefined] are left out. *)
Definition JSON_stringify (o : jsobj) : json := JObj (omap id o).

(** [ToNumber] on the operands the subtraction can meet.  The reading of
    a string as a number, and of an array through its string form, are
    left to the instance; a plain object is [NaN] ([None]). *)
Class Coercions := {
  StringToNumber : string → option Z;
  ArrayToNumber : list json → option Z
}.

Definition ToNumber `{Coercions} (v : jsval) : option Z :=
  match v with
  | None => None
  | Some JNull => Some 0
  | Some (JBool b) => Some (if b then 1 else 0)
  | Some (JNum n) => Some n
  | Some (JStr s) => StringToNumber s
  | Some (JArr l) => ArrayToNumber l
  | Some (JObj _) => None
  end.

(** A concrete reading for closed examples: decimal digit strings. *)
Definition digits_to_number (s : string) : option Z :=
  if String.eqb s EmptyString then Some 0
  else foldl (λ acc c, n ← acc;
                let d := Z.of_nat (Ascii.nat_of_ascii c) - 48 in
                if (0 <=? d) && (d <=? 9) then Some (10 * n + d) else None)
             (Some 0) (String.list_ascii_of_string s).

Definition decimal_coercions : Coercions :=
  {| StringToNumber := digits_to_number;
     ArrayToNumber := λ l, match l with [] => Some 0 | _ => None end |}.

End JS.
Import JS.

(** ** Effects: state, recorded events, exceptions *)

Module Eff.

Inductive result (A : Type) : Type :=
| Ok (a : A)
| Throw (e : exn).
Arguments Ok {A} a.
Arguments Throw {A} e.

Section Monad.
Context {W E : Type}.

Record run (A : Type) : Type := Run {
  value : result A;
  after : W;
  emitted : list E
}.
Arguments Run {A} _ _ _.
Arguments value {A} _.
Arguments after {A} _.
Arguments emitted {A} _.

Definition M (A : Type) : Type := W → run A.

Definition ret {A} (a : A) : M A := λ w, Run (Ok a) w [].

Definition throw {A} (e : exn) : M A := λ w, Run (Throw e) w [].

Definition prepend {A} (evs : list E) (r : run A) : run A :=
  match r with Run v w evs' => Run v w (evs ++ evs') end.

Definition bind {A B} (m : M A) (f : A → M B) : M B := λ w,
  match m w with
  | Run (Ok a) w' evs => prepend evs (f a w')
  | Run (Throw e) w' evs => Run (Throw e) w' evs
  end.

(** [try { m } catch (e) { h e }] *)
Definition try_catch {A} (m : M A) (h : exn → M A) : M A := λ w,
  match m w with
  | Run (Ok a) w' evs => Run (Ok a) w' evs
  | Run (Throw e) w' evs => prepend evs (h e w')
  end.

Definition emit (e : E) : M unit := λ w, Run (Ok tt) w [e].
Definition gets {A} (f : W → A) : M A := λ w, Run (Ok (f w)) w [].
Definition modify (f : W → W) : M unit := λ w, Run (Ok tt) (f w) [].
Definition lift {A} (r : exn + A) : M A :=
  match r with inl e => throw e | inr a => ret a end.
End Monad.

Arguments run : clear implicits.
Arguments M : clear implicits.
Arguments Run {W E A} _ _ _.
Arguments value {W E A} _.
Arguments after {W E A} _.
Arguments emitted {W E A} _.

Declare Scope eff_scope.
Delimit Scope eff_scope with eff.
Notation "x <- m ;; k" := (bind m (λ x, k))
  (at level 100, m at next level, right associativity) : eff_scope.
Notation "m ;; k" := (bind m (λ _, k))
  (at level 100, right associativity) : eff_scope.

End Eff.
Import Eff.
Local Open Scope eff_scope.

(** ** The credential file, the OAuth client and [loadSavedTokens] *)

Module Tokens.

(** The text of the file at [getSecureTokenPath()], up to [JSON.parse]:
    text the parser rejects, or text that parses to [v]. *)
Inductive file_text : Type :=
| Malformed
| Json (v : json).

Inductive file_state : Type :=
| Missing
| Present (mode : Z) (text : file_text).

(** Owner-read and owner-write bits of a permission mode. *)
Definition owner_can_read (mode : Z) : bool := Z.testbit mode 8.
Definition owner_can_write (mode : Z) : bool := Z.testbit mode 7.

(** [0o600] *)
Definition mode_0o600 : Z := 6 * 64.

Record world : Type := World {
  tokenFile : file_state;      (* the file at the token path *)
  diskAccepts : bool;          (* whether the volume takes a write at all *)
  clock : Z;                   (* [Date.now()] *)
  credentials : jsobj;         (* [oauth2Client.credentials] *)
  listeners : nat;             (* handlers registered for ['tokens'] *)
  provider : option jsobj      (* what [refreshAccessToken] resolves to;
                                  [None]: the call rejects *)
}.

Definition set_tokenFile (f : file_state) (w : world) : world :=
  World f (diskAccepts w) (clock w) (credentials w) (listeners w) (provider w).
Definition set_credentials (c : jsobj) (w : world) : world :=
  World (tokenFile w) (diskAccepts w) (clock w) c (listeners w) (provider w).
Definition add_listener (w : world) : world :=
  World (tokenFile w) (diskAccepts w) (clock w) (credentials w)
        (S (listeners w)) (provider w).

Inductive event : Type :=
| Access                                (* [fs.access(tokenPath)] *)
| ReadFile                              (* [fs.readFile(tokenPath, 'utf-8')] *)
| WriteFile (data : json) (mode : Z)    (* [fs.writeFile(tokenPath, data, { mode })] *)
| Refresh                               (* [oauth2Client.refreshAccessToken()] *)
| ConsoleError (label : string).        (* [console.error(label, ...)] *)

Abbreviation Io := (M world event).

(** [fs.access(tokenPath).then(() => true).catch(() => false)] *)
Definition fs_access : Io bool :=
  emit Access ;;
  f <- gets tokenFile ;;
  ret (match f with Missing => false | Present _ _ => true end).

Definition fs_readFile : Io file_text :=
  emit ReadFile ;;
  f <- gets tokenFile ;;
  match f with
  | Missing => throw (SystemError "ENOENT")
  | Present mode text =>
      if owner_can_read mode then ret text else throw (SystemError "EACCES")
  end.

Definition JSON_parse (text : file_text) : Io json :=
  match text with
  | Malformed => throw SyntaxError
  | Json v => ret v
  end.

(** [fs.writeFile(tokenPath, data, { mode })]: the file's content is
    replaced; [mode] is given to a file the call creates and leaves the
    permissions of an existing file as they are. *)
Definition fs_writeFile (data : json) (mode : Z) : Io unit :=
  emit (WriteFile data mode) ;;
  f <- gets tokenFile ;;
  ok <- gets diskAccepts ;;
  match f with
  | Missing =>
      if ok then modify (set_tokenFile (Present mode (Json data)))
      else throw (SystemError "ENOSPC")
  | Present m _ =>
      if negb (owner_can_write m) then throw (SystemError "EACCES")
      else if ok then modify (set_tokenFile (Present m (Json data)))
      else throw (SystemError "ENOSPC")
  end.

Definition console_error (label : string) : Io unit := emit (ConsoleError label).
Definition setCredentials (c : jsobj) : Io unit := modify (set_credentials c).
Definition Date_now : Io Z := gets clock.
Definition on_tokens : Io unit := modify add_listener.

(** [await oauth2Client.refreshAccessToken()], reduced to the credentials
    of its response.  The client also notifies the handlers registered for
    ['tokens']; a notification is delivered as a run of [onTokens] of its
    own, after the caller has finished. *)
Definition refreshAccessToken : Io jsobj :=
  emit Refresh ;;
  p <- gets provider ;;
  match p with
  | Some newTokens => ret newTokens
  | None => throw GaxiosError
  end.

Section WithCoercions.
Context `{Coercions}.

(** [expiryDate ? now >= (expiryDate - 5 * 60 * 1000) : true];
    a comparison with [NaN] is false. *)
Definition isExpired (now : Z) (expiryDate : jsval) : bool :=
  if truthy expiryDate then
    match ToNumber expiryDate with
    | Some e => now >=? e - 5 * 60 * 1000
    | None => false
    end
  else true.

(** The block guarded by [isExpired && tokens.refresh_token].
    [Some b]: the function returns [b] from inside the block;
    [None]: control falls through to the statement after it. *)
Definition refresh_and_persist : Io (option bool) :=
  try_catch
    (newTokens <- refreshAccessToken ;;
     if negb (truthy (field newTokens "access_token"))
     then throw (Error "Received invalid tokens during refresh")
     else
       (fs_writeFile (JSON_stringify newTokens) mode_0o600 ;;
        setCredentials newTokens ;;
        ret None))
    (λ refreshError,
       console_error "Error refreshing auth token:" ;;
       ret (Some false)).

Definition loadSavedTokens : Io bool :=
  try_catch
    (found <- fs_access ;;
     if negb found
     then (console_error "No token file found" ;; ret false)
     else
       (text <- fs_readFile ;;
        tokens <- JSON_parse text ;;
        if negb (truthy (Some tokens)) || negb (String.eqb (typeof tokens) "object")
        then (console_error "Invalid token format" ;; ret false)
        else
          (setCredentials (spread tokens) ;;
           expiryDate <- lift (prop tokens "expiry_date") ;;
           now <- Date_now ;;
           refresh_token <- lift (prop tokens "refresh_token") ;;
           returned <- (if isExpired now expiryDate && truthy refresh_token
                        then refresh_and_persist
                        else ret None) ;;
           match returned with
           | Some b => ret b
           | None => on_tokens ;; ret true
           end)))
    (λ error, console_error "Error loading tokens:" ;; ret false).
End WithCoercions.

(** The handler registered with [oauth2Client.on('tokens', ...)]. *)
Definition onTokens (newTokens : jsobj) : Io unit :=
  try_catch
    (text <- fs_readFile ;;
     currentTokens <- JSON_parse text ;;
     refresh_token <-
       (if truthy (field newTokens "refresh_token")
        then ret (field newTokens "refresh_token")
        else lift (prop currentTokens "refresh_token")) ;;
     let updatedTokens : jsobj :=
       <["refresh_token" := refresh_token]> (newTokens ∪ spread currentTokens) in
     fs_writeFile (JSON_stringify updatedTokens) mode_0o600)
    (λ error, console_error "Error saving updated tokens:").

End Tokens.
Import Tokens.

(** ** The tool-call handler and [main] *)

Module Dispatcher.

Inductive api_method : Type :=
| CalendarList_list | Events_list | Events_insert
| Events_patch | Events_delete | Colors_get.

Inductive schema : Type :=
| ListEventsArgumentsSchema | CreateEventArgumentsSchema
| UpdateEventArgumentsSchema | DeleteEventArgumentsSchema.

(** What [index.ts] itself does to the outside. *)
Inductive event : Type :=
| ReadKeys                                       (* [fs.readFile(getKeysFilePath())] *)
| CalendarCall (m : api_method) (args : jsval)   (* a request to the calendar API *)
| Connect                                        (* [server.connect(transport)] *)
| ConsoleLog (label : string)
| ConsoleError (label : string).

(** [new OAuth2Client({ clientId, clientSecret, redirectUri })] *)
Record OAuth2Client : Type := NewOAuth2Client {
  clientId : jsval;
  clientSecret : jsval;
  redirectUri : jsval
}.

Record ToolResult : Type := TextContent { text : string }.

(** How [main] ends: the server is connected and waits for requests, or
    [process.exit(code)] was called. *)
Inductive startup : Type :=
| Serving
| Exited (code : Z).

(** The double-quote character. *)
Definition dquote : string := String (Ascii.ascii_of_nat 34) EmptyString.

Definition headless_message : string :=
  "Authentication required. Please run " +:+ dquote +:+ "npm run auth" +:+ dquote
  +:+ " to authenticate with Google Calendar.".

(** [port ? `... http://localhost:${port} ...` : '... npm run auth ...'] *)
Definition authMessage (port : option Z) : string :=
  match port with
  | Some p =>
      if truthy (Some (JNum p)) then
        "Authentication required. Please visit http://localhost:" +:+ pretty p
        +:+ " to authenticate with Google Calendar. If this port is unavailable, the server will try ports 3001-3004."
      else headless_message
  | None => headless_message
  end.

(** [v === s] for a string [s] *)
Definition strict_eq_string (v : jsval) (s : string) : bool :=
  match v with
  | Some (JStr k) => String.eqb k s
  | _ => false
  end.

(** [v.k] where [v] may be [undefined]. *)
Definition prop_of (v : jsval) (k : string) : exn + jsval :=
  match v with
  | None => inl TypeError
  | Some j => prop j k
  end.

Section WithCollaborators.
(** [TokenManager] (token-manager.ts) and [AuthServer] (auth-server.ts)
    are modules of their own.  Each instance is a state of an arbitrary
    type, and each method used here is an arbitrary transition on it
    that returns or throws. *)
Context {TM AS : Type}.
Variable new_TokenManager : OAuth2Client → exn + TM.
Variable new_AuthServer : OAuth2Client → exn + AS.
Variable tm_loadSavedTokens : TM → result bool * TM.
Variable tm_validateTokens : TM → result bool * TM.
Variable as_start : AS → result bool * AS.
(** The remote calendar API, argument validation by the zod schemas, and
    the rendering of a response as the text of a tool result. *)
Variable calendar_api : api_method → jsval → exn + jsval.
Variable zod_parse : schema → jsval → exn + json.
Variable render : api_method → jsval → exn + string.

(** The module-level variables of [index.ts] ([undefined] until [main]
    assigns them) and the keys file. *)
Record process : Type := Process {
  keysFile : file_state;
  oauth2Client : option OAuth2Client;
  tokenManager : option TM;
  authServer : option AS
}.

Definition set_oauth2Client (c : OAuth2Client) (p : process) : process :=
  Process (keysFile p) (Some c) (tokenManager p) (authServer p).
Definition set_tokenManager (t : TM) (p : process) : process :=
  Process (keysFile p) (oauth2Client p) (Some t) (authServer p).
Definition set_authServer (a : AS) (p : process) : process :=
  Process (keysFile p) (oauth2Client p) (tokenManager p) (Some a).

Abbreviation Io := (M process event).

(** [await tokenManager.method()] *)
Definition on_tokenManager {A} (method : TM → result A * TM) : Io A := λ p,
  match tokenManager p with
  | None => Run (Throw TypeError) p []
  | Some t => let (r, t') := method t in Run r (set_tokenManager t' p) []
  end.

(** [await authServer.method()] *)
Definition on_authServer {A} (method : AS → result A * AS) : Io A := λ p,
  match authServer p with
  | None => Run (Throw TypeError) p []
  | Some a => let (r, a') := method a in Run r (set_authServer a' p) []
  end.

Definition calendar (m : api_method) (args : jsval) : Io jsval :=
  emit (CalendarCall m args) ;;
  lift (calendar_api m args).

Definition console_log (label : string) : Io unit := emit (ConsoleLog label).
Definition console_error (label : string) : Io unit := emit (ConsoleError label).

(** The text content of a tool result, rendered from a response. *)
Definition rendered (m : api_method) (response : jsval) : Io ToolResult :=
  content <- lift (render m response) ;;
  ret (TextContent content).

(** The [switch (name)] of the handler, inside its [try]/[catch]. *)
Definition dispatch (name : string) (args : jsval) : Io ToolResult :=
  try_catch
    (if String.eqb name "list-calendars" then
       (response <- calendar CalendarList_list undefined ;;
        rendered CalendarList_list response)
     else if String.eqb name "list-events" then
       (validArgs <- lift (zod_parse ListEventsArgumentsSchema args) ;;
        response <- calendar Events_list (Some validArgs) ;;
        rendered Events_list response)
     else if String.eqb name "create-event" then
       (validArgs <- lift (zod_parse CreateEventArgumentsSchema args) ;;
        event <- calendar Events_insert (Some validArgs) ;;
        rendered Events_insert event)
     else if String.eqb name "update-event" then
       (validArgs <- lift (zod_parse UpdateEventArgumentsSchema args) ;;
        event <- calendar Events_patch (Some validArgs) ;;
        rendered Events_patch event)
     else if String.eqb name "delete-event" then
       (validArgs <- lift (zod_parse DeleteEventArgumentsSchema args) ;;
        calendar Events_delete (Some validArgs) ;;
        ret (TextContent "Event deleted successfully"))
     else if String.eqb name "list-colors" then
       (colors <- calendar Colors_get undefined ;;
        kind <- lift (prop_of colors "kind") ;;
        if negb (strict_eq_string kind "calendar#colors")
        then throw (Error "Invalid color data received from Google Calendar API")
        else rendered Colors_get colors)
     else throw (Error ("Unknown tool: " +:+ name)))
    (λ error, console_error "Error processing request:" ;; throw error).

(** The handler registered for [CallToolRequestSchema]. *)
Definition CallTool (name : string) (args : jsval) : Io ToolResult :=
  valid <- on_tokenManager tm_validateTokens ;;
  if negb valid then
    (a <- gets authServer ;;
     let port := match a with Some _ => Some 3000 | None => None end in
     throw (Error (authMessage port)))
  else dispatch name args.

Definition initializeOAuth2Client : Io OAuth2Client :=
  try_catch
    (emit ReadKeys ;;
     f <- gets keysFile ;;
     keysContent <-
       match f with
       | Missing => throw (SystemError "ENOENT")
       | Present mode content =>
           if owner_can_read mode then ret content
           else throw (SystemError "EACCES")
       end ;;
     keys <- match keysContent with
             | Malformed => throw SyntaxError
             | Json v => ret v
             end ;;
     installed <- lift (prop keys "installed") ;;
     client_id <- lift (prop_of installed "client_id") ;;
     client_secret <- lift (prop_of installed "client_secret") ;;
     redirect_uris <- lift (prop_of installed "redirect_uris") ;;
     redirect_uri <- lift (prop_of redirect_uris "0") ;;
     ret (NewOAuth2Client client_id client_secret redirect_uri))
    (λ error, console_error "Error loading OAuth keys:" ;; throw error).

Definition main : Io startup :=
  try_catch
    (client <- initializeOAuth2Client ;;
     modify (set_oauth2Client client) ;;
     t <- lift (new_TokenManager client) ;;
     modify (set_tokenManager t) ;;
     a <- lift (new_AuthServer client) ;;
     modify (set_authServer a) ;;
     loaded <- on_tokenManager tm_loadSavedTokens ;;
     exited <-
       (if negb loaded then
          (console_log "No valid tokens found, starting auth server..." ;;
           success <- on_authServer as_start ;;
           if negb success
           then (console_error "Failed to start auth server" ;; ret true)
           else ret false)
        else ret false) ;;
     if (exited : bool) then ret (Exited 1)
     else
       (emit Connect ;;
        console_error "Google Calendar MCP Server running on stdio" ;;
        ret Serving))
    (λ error, console_error "Server startup failed:" ;; ret (Exited 1)).

(** The states in which the handler can be invoked: [main] has ended in
    [Serving]; afterwards requests are handled, and the collaborators
    change their own state (the auth server receives its callback and
    stops, the token manager saves or clears tokens) while the
    variables of [index.ts] keep referring to the same objects. *)
Inductive serving : process → Prop :=
| serving_started p0 r :
    main p0 = r → value r = Ok Serving → serving (after r)
| serving_handled p name args :
    serving p → serving (after (CallTool name args p))
| serving_collaborators p t t' a a' :
    serving p → tokenManager p = Some t → authServer p = Some a →
    serving (set_authServer a' (set_tokenManager t' p)).

End WithCollaborators.

(** Whether [needle] occurs in [hay]. *)
Fixpoint contains (needle hay : string) : bool :=
  String.prefix needle hay
  || match hay with
     | EmptyString => false
     | String _ rest => contains needle rest
     end.

End Dispatcher.

(** ** Observations on a run *)

Definition is_refresh (e : Tokens.event) : bool :=
  match e with Refresh => true | _ => false end.

(** How many times the provider was asked for a new access token. *)
Definition refresh_calls (evs : list Tokens.event) : nat :=
  length (List.filter is_refresh evs).

(** The writes of the credential file, each with its content and mode. *)
Definition file_writes (evs : list Tokens.event) : list (json * Z) :=
  omap (λ e, match e with WriteFile data mode => Some (data, mode) | _ => None end) evs.

(** The labels printed with [console.error]. *)
Definition error_labels (evs : list Tokens.event) : list string :=
  omap (λ e, match e with Tokens.ConsoleError l => Some l | _ => None end) evs.

(** The document a credential file holds, when it holds one. *)
Definition stored (f : file_state) : option json :=
  match f with
  | Present _ (Json v) => Some v
  | _ => None
  end.

(** The permissions of the credential file, when there is one. *)
Definition file_mode (f : file_state) : option Z :=
  match f with
  | Missing => None
  | Present mode _ => Some mode
  end.

(** A field of the document the credential file holds. *)
Definition persisted_field (f : file_state) (k : string) : jsval :=
  d ← stored f; own_props d !! k.

Definition owner_only (d : json * Z) : Prop := d.2 = mode_0o600.

(** The guard [!tokens || typeof tokens !== 'object'] lets arrays and
    objects through. *)
Definition passes_guard (v : json) : bool :=
  match v with JArr _ | JObj _ => true | _ => false end.

(** Whether [fs.writeFile] on the credential file resolves, and the world
    it leaves when it does. *)
Definition write_accepted (w : world) : bool :=
  match tokenFile w with
  | Missing => diskAccepts w
  | Present m _ => owner_can_write m && diskAccepts w
  end.

Definition written (data : json) (w : world) : world :=
  set_tokenFile
    (match tokenFile w with
     | Missing => Present mode_0o600 (Json data)
     | Present m _ => Present m (Json data)
     end) w.

(** ** Concrete credentials used in the examples *)

Module Samples.

(** A record as the authorization flow saves it. *)
Definition saved : gmap string json :=
  {[ "access_token" := JStr "ya29.old";
     "refresh_token" := JStr "1//R";
     "scope" := JStr "https://www.googleapis.com/auth/calendar";
     "token_type" := JStr "Bearer";
     "expiry_date" := JNum 1700000000000 ]}.

(** The same record without a refresh token. *)
Definition saved_without_refresh : gmap string json :=
  delete "refresh_token" saved.

(** The same record without an expiry date. *)
Definition saved_without_expiry : gmap string json :=
  delete "expiry_date" saved.

(** Refreshed credentials that carry neither the refresh token nor the
    granted scope. *)
Definition refreshed_bare : jsobj :=
  {[ "access_token" := Some (JStr "ya29.new");
     "expiry_date" := Some (JNum 1700003600000) ]}.

(** Refreshed credentials into which the client has copied the refresh
    token it used, still without the scope. *)
Definition refreshed_with_token : jsobj :=
  <["refresh_token" := Some (JStr "1//R")]> refreshed_bare.

(** A clock one minute before the saved record expires. *)
Definition near_expiry : Z := 1700000000000 - 60 * 1000.

(** A clock one hour after the saved record expired. *)
Definition long_after : Z := 1700000000000 + 3600 * 1000.

(** A clock ten minutes before the saved record expires. *)
Definition well_before : Z := 1700000000000 - 10 * 60 * 1000.

Definition world_with (t : gmap string json) (now : Z) (p : option jsobj) : world :=
  {| tokenFile := Present mode_0o600 (Json (JObj t));
     diskAccepts := true;
     clock := now;
     credentials := ∅;
     listeners := 0;
     provider := p |}.

(** The saved record one minute before it expires, with the provider
    answering [p]. *)
Definition inside_margin (p : option jsobj) : world :=
  world_with saved near_expiry p.

(** The saved record ten minutes before it expires. *)
Definition fresh : world := world_with saved well_before None.

(** A record without refresh token, an hour after it expired. *)
Definition expired_no_refresh : world :=
  world_with saved_without_refresh long_after None.

(** A record without expiry date. *)
Definition no_expiry : world :=
  world_with saved_without_expiry well_before (Some refreshed_with_token).

(** Files that cannot be loaded: no read permission, text that is not
    JSON, no file. *)
Definition unreadable : world := World (Present 0 (Json (JObj saved))) true 0 ∅ 0 None.
Definition garbled : world := World (Present mode_0o600 Malformed) true 0 ∅ 0 None.
Definition absent : world := World Missing true 0 ∅ 0 None.

(** [loadSavedTokens] with strings read as decimal numbers. *)
Definition load : world → run world Tokens.event bool :=
  @loadSavedTokens decimal_coercions.

(** A notification that carries a rotated access token and nothing else. *)
Definition rotated : jsobj := {[ "access_token" := Some (JStr "ya29.rotated") ]}.

(** Application credentials as the provider issues them. *)
Definition keys : json :=
  JObj {[ "installed" :=
            JObj {[ "client_id" := JStr "id.apps.googleusercontent.com";
                    "client_secret" := JStr "secret";
                    "redirect_uris" := JArr [JStr "http://localhost"] ]} ]}.

(** Collaborators for a first start: the token manager (state [unit])
    finds no tokens and validates nothing; the auth server (state: the
    port it is bound to) finds port 3000 taken and binds 3001. *)
Definition no_tokens (t : unit) : result bool * unit := (Ok false, t).
Definition binds_3001 (a : option Z) : result bool * option Z := (Ok true, Some 3001).
Definition no_calendar (m : Dispatcher.api_method) (a : jsval) : exn + jsval :=
  inl GaxiosError.
Definition any_arguments (sc : Dispatcher.schema) (a : jsval) : exn + json :=
  match a with Some v => inr v | None => inl ZodError end.
Definition no_rendering (m : Dispatcher.api_method) (v : jsval) : exn + string :=
  inr EmptyString.

Definition before_main : Dispatcher.process (TM:=unit) (AS:=option Z) :=
  Dispatcher.Process (Present mode_0o600 (Json keys)) None None None.

Definition first_start :=
  Dispatcher.main (TM:=unit) (AS:=option Z)
    (λ _, inr tt) (λ _, inr None) no_tokens binds_3001.

Definition tool_call :=
  Dispatcher.CallTool (TM:=unit) (AS:=option Z)
    no_tokens no_calendar any_arguments no_rendering.

(** A process in which only the token manager has been assigned. *)
Definition without_auth_server : Dispatcher.process (TM:=unit) (AS:=option Z) :=
  Dispatcher.Process Missing None (Some tt) None.

End Samples.

(** ** Further observations *)

(** The document that [fs.readFile] and [JSON.parse] deliver together,
    when both succeed. *)
Definition readable_document (w : world) : option json :=
  match tokenFile w with
  | Present mode (Json v) => if owner_can_read mode then Some v else None
  | _ => None
  end.

(** Field [k] of [{...cur, ...newTokens, refresh_token: newTokens.refresh_token
    || cur.refresh_token}], read key by key. *)
Definition merged_field (cur : gmap string json) (newTokens : jsobj) (k : string) : jsval :=
  if decide (k = "refresh_token") then
    if truthy (field newTokens k) then field newTokens k else cur !! k
  else
    match newTokens !! k with
    | Some v => v
    | None => cur !! k
    end.

(** The record the handler writes:
    [{...cur, ...newTokens, refresh_token: newTokens.refresh_token ||
    cur.refresh_token}] as [JSON.stringify] keeps it. *)
Definition merged_record (cur : gmap string json) (newTokens : jsobj) : gmap string json :=
  omap id
    (<["refresh_token" :=
         if truthy (field newTokens "refresh_token")
         then field newTokens "refresh_token"
         else cur !! "refresh_token"]>
       (newTokens ∪ (Some <$> cur))).

(** Whether a property name begins with a decimal digit, as the index of
    an array element does. *)
Definition starts_with_digit (k : string) : bool :=
  match k with
  | String c _ =>
      let n := Ascii.nat_of_ascii c in (48 <=? n)%nat && (n <=? 57)%nat
  | EmptyString => false
  end.

(** The requests to the calendar API among the events of the dispatcher,
    and the labels it printed with [console.error]. *)
Definition calendar_calls (evs : list Dispatcher.event)
    : list (Dispatcher.api_method * jsval) :=
  omap (λ e, match e with Dispatcher.CalendarCall m a => Some (m, a) | _ => None end) evs.

Definition logged_errors (evs : list Dispatcher.event) : list string :=
  omap (λ e, match e with Dispatcher.ConsoleError l => Some l | _ => None end) evs.

(** The calendar methods requested, in order. *)
Definition calendar_methods (evs : list Dispatcher.event) : list Dispatcher.api_method :=
  omap (λ e, match e with Dispatcher.CalendarCall m _ => Some m | _ => None end) evs.

(** Whether a permission mode lets the group or others read the file. *)
Definition others_can_read (mode : Z) : bool := Z.testbit mode 5 || Z.testbit mode 2.

Definition connected (evs : list Dispatcher.event) : bool :=
  existsb (λ e, match e with Dispatcher.Connect => true | _ => false end) evs.

(** ** The body of the handler's [try] *)

Module Switch.
Import Dispatcher.

Section WithCollaborators.
Context {TM AS : Type}.
Variable calendar_api : api_method → jsval → exn + jsval.
Variable zod_parse : schema → jsval → exn + json.
Variable render : api_method → jsval → exn + string.

(** The [switch (name)] statement on its own, as it stands between [try {]
    and [} catch]. *)
Definition tool_switch (name : string) (args : jsval)
    : M (process (TM:=TM) (AS:=AS)) event ToolResult :=
  if String.eqb name "list-calendars" then
    (response <- calendar calendar_api CalendarList_list undefined ;;
     rendered render CalendarList_list response)
  else if String.eqb name "list-events" then
    (validArgs <- lift (zod_parse ListEventsArgumentsSchema args) ;;
     response <- calendar calendar_api Events_list (Some validArgs) ;;
     rendered render Events_list response)
  else if String.eqb name "create-event" then
    (validArgs <- lift (zod_parse CreateEventArgumentsSchema args) ;;
     event <- calendar calendar_api Events_insert (Some validArgs) ;;
     rendered render Events_insert event)
  else if String.eqb name "update-event" then
    (validArgs <- lift (zod_parse UpdateEventArgumentsSchema args) ;;
     event <- calendar calendar_api Events_patch (Some validArgs) ;;
     rendered render Events_patch event)
  else if String.eqb name "delete-event" then
    (validArgs <- lift (zod_parse DeleteEventArgumentsSchema args) ;;
     calendar calendar_api Events_delete (Some validArgs) ;;
     ret (TextContent "Event deleted successfully"))
  else if String.eqb name "list-colors" then
    (colors <- calendar calendar_api Colors_get undefined ;;
     kind <- lift (prop_of colors "kind") ;;
     if negb (strict_eq_string kind "calendar#colors")
     then throw (Error "Invalid color data received from Google Calendar API")
     else rendered render Colors_get colors)
  else throw (Error ("Unknown tool: " +:+ name)).

End WithCollaborators.

End Switch.

(** ** The advertised tools and the argument schemas *)

Module Catalogue.
Import Dispatcher.

(** The JSON Schema fragments used by the [inputSchema] of a tool. *)
#[warnings="-register-all"] Inductive jschema : Type :=
| SString (description : string)
| SArray (description : string) (items : jschema)
| SObject (properties : list (string * jschema)) (required : list string).

Record tool : Type := Tool {
  tool_name : string;
  tool_description : string;
  inputSchema : jschema
}.

Definition attendees_schema : jschema :=
  SArray "List of attendees"
    (SObject [("email", SString "Email address of the attendee")] ["email"]).

Definition colorId_schema : jschema :=
  SString "The color ID for the event (e.g., '1' for Lavender). Use list-colors to see available colors.".

(** The answer of the handler registered for [ListToolsRequestSchema]. *)
Definition tools : list tool :=
  [ Tool "list-calendars" "List all available calendars" (SObject [] []);
    Tool "list-events" "List events from a calendar"
      (SObject
         [("calendarId", SString "ID of the calendar to list events from");
          ("timeMin", SString "Start time in ISO format (optional)");
          ("timeMax", SString "End time in ISO format (optional)")]
         ["calendarId"]);
    Tool "create-event" "Create a new calendar event"
      (SObject
         [("calendarId", SString "ID of the calendar to create event in");
          ("summary", SString "Title of the event");
          ("description", SString "Description of the event");
          ("start", SString "Start time in ISO format");
          ("end", SString "End time in ISO format");
          ("location", SString "Location of the event");
          ("attendees", attendees_schema);
          ("colorId", colorId_schema)]
         ["calendarId"; "summary"; "start"; "end"]);
    Tool "update-event" "Update an existing calendar event"
      (SObject
         [("calendarId", SString "ID of the calendar containing the event");
          ("eventId", SString "ID of the event to update");
          ("summary", SString "New title of the event");
          ("description", SString "New description of the event");
          ("start", SString "New start time in ISO format");
          ("end", SString "New end time in ISO format");
          ("location", SString "New location of the event");
          ("attendees", attendees_schema);
          ("colorId", colorId_schema)]
         ["calendarId"; "eventId"]);
    Tool "delete-event" "Delete a calendar event"
      (SObject
         [("calendarId", SString "ID of the calendar containing the event");
          ("eventId", SString "ID of the event to delete")]
         ["calendarId"; "eventId"]);
    Tool "list-colors" "List available colors for both calendars and events"
      (SObject [] []) ].

(** The zod combinators the argument schemas are built from. *)
#[warnings="-register-all"] Inductive zod : Type :=
| ZString
| ZOptional (inner : zod)
| ZDescribe (inner : zod) (description : string)
| ZArray (element : zod)
| ZObject (shape : list (string * zod)).

Definition colorId_zod : zod :=
  ZDescribe (ZOptional ZString)
    "The color ID for the event, e.g., '1' for Lavender, '2' for Sage, etc.".

Definition attendees_zod : zod :=
  ZOptional (ZArray (ZObject [("email", ZString)])).

Definition shape_of (sc : schema) : zod :=
  match sc with
  | ListEventsArgumentsSchema =>
      ZObject [("calendarId", ZString);
               ("timeMin", ZOptional ZString);
               ("timeMax", ZOptional ZString)]
  | CreateEventArgumentsSchema =>
      ZObject [("calendarId", ZString);
               ("summary", ZString);
               ("description", ZOptional ZString);
               ("start", ZString);
               ("end", ZString);
               ("attendees", attendees_zod);
               ("location", ZOptional ZString);
               ("colorId", colorId_zod)]
  | UpdateEventArgumentsSchema =>
      ZObject [("calendarId", ZString);
               ("eventId", ZString);
               ("summary", ZOptional ZString);
               ("description", ZOptional ZString);
               ("start", ZOptional ZString);
               ("end", ZOptional ZString);
               ("attendees", attendees_zod);
               ("location", ZOptional ZString);
               ("colorId", colorId_zod)]
  | DeleteEventArgumentsSchema =>
      ZObject [("calendarId", ZString); ("eventId", ZString)]
  end.

(** Whether a zod schema accepts [undefined]. *)
Fixpoint accepts_undefined (z : zod) : bool :=
  match z with
  | ZOptional _ => true
  | ZDescribe inner _ => accepts_undefined inner
  | ZString | ZArray _ | ZObject _ => false
  end.

(** The keys of an object schema, and those that must be given. *)
Definition zod_keys (z : zod) : list string :=
  match z with ZObject shape => shape.*1 | _ => [] end.

Definition zod_required (z : zod) : list string :=
  match z with
  | ZObject shape => (filter (λ kz, accepts_undefined kz.2 = false) shape).*1
  | _ => []
  end.

Definition advertised_keys (s : jschema) : list string :=
  match s with SObject properties _ => properties.*1 | _ => [] end.

Definition advertised_required (s : jschema) : list string :=
  match s with SObject _ required => required | _ => [] end.

(** The JSON type a schema stands for: ["string"], ["array"], ["object"]. *)
Definition advertised_type (s : jschema) : string :=
  match s with
  | SString _ => "string"
  | SArray _ _ => "array"
  | SObject _ _ => "object"
  end.

Fixpoint zod_type (z : zod) : string :=
  match z with
  | ZString => "string"
  | ZOptional inner | ZDescribe inner _ => zod_type inner
  | ZArray _ => "array"
  | ZObject _ => "object"
  end.

(** A zod schema with its [optional] and [describe] wrappers removed. *)
Fixpoint unwrap (z : zod) : zod :=
  match z with
  | ZOptional inner | ZDescribe inner _ => unwrap inner
  | _ => z
  end.

(** Whether an advertised schema and a zod schema describe the same
    arguments: the same type, for an array the same elements, for an object
    the same keys, the same required keys and agreeing schemas key by key. *)
Fixpoint agrees (s : jschema) (z : zod) {struct s} : bool :=
  match s, unwrap z with
  | SString _, ZString => true
  | SArray _ items, ZArray element => agrees items element
  | SObject properties required, ZObject shape =>
      bool_decide (list_to_set properties.*1 =@{gset string} list_to_set shape.*1)
      && bool_decide (required = zod_required (ZObject shape))
      && forallb (λ '(k, s'),
                    match (list_to_map shape : gmap string zod) !! k with
                    | Some z' => agrees s' z'
                    | None => false
                    end) properties
  | _, _ => false
  end.

(** The [case] a tool name selects in the handler: the calendar method it
    requests and the schema it parses the arguments with, if any. *)
Definition tool_route (name : string) : option (api_method * option schema) :=
  if String.eqb name "list-calendars" then Some (CalendarList_list, None)
  else if String.eqb name "list-events" then Some (Events_list, Some ListEventsArgumentsSchema)
  else if String.eqb name "create-event" then Some (Events_insert, Some CreateEventArgumentsSchema)
  else if String.eqb name "update-event" then Some (Events_patch, Some UpdateEventArgumentsSchema)
  else if String.eqb name "delete-event" then Some (Events_delete, Some DeleteEventArgumentsSchema)
  else if String.eqb name "list-colors" then Some (Colors_get, None)
  else None.

End Catalogue.

(** ** Shutdown *)

Module Shutdown.
Import Dispatcher.

Section WithCollaborators.
Context {TM AS : Type}.
Variable as_stop : AS → result unit * AS.
Variable tm_clearTokens : TM → result unit * TM.

(** [cleanup], the handler of SIGINT and SIGTERM.  It ends in
    [process.exit(0)] unless one of the collaborators throws first. *)
Definition cleanup : M (process (TM:=TM) (AS:=AS)) Dispatcher.event startup :=
  console_log "Cleaning up..." ;;
  a <- gets authServer ;;
  (match a with
   | Some _ => on_authServer as_stop
   | None => ret tt
   end) ;;
  t <- gets tokenManager ;;
  (match t with
   | Some _ => on_tokenManager tm_clearTokens
   | None => ret tt
   end) ;;
  ret (Exited 0).

End WithCollaborators.

End Shutdown.

(** ** The text of the tool results *)

Module Rendering.

(** A field declared [string | null | undefined]. *)
Inductive nullable (A : Type) : Type :=
| Undefined
| Null
| Value (a : A).
Arguments Undefined {A}.
Arguments Null {A}.
Arguments Value {A} a.

(** [v || fallback] on a string field: [undefined], [null] and the empty
    string give the fallback. *)
Definition or_text (v : nullable string) (fallback : string) : string :=
  match v with
  | Value s => if String.eqb s EmptyString then fallback else s
  | Undefined | Null => fallback
  end.

(** Whether a string field is truthy. *)
Definition present (v : nullable string) : bool :=
  match v with
  | Value s => negb (String.eqb s EmptyString)
  | Undefined | Null => false
  end.

(** The line feed ['\n']. *)
Definition nl : string := String (Ascii.ascii_of_nat 10) EmptyString.

Record CalendarListEntry : Type := {
  cal_id : nullable string;
  cal_summary : nullable string
}.

Record CalendarEventAttendee : Type := {
  email : nullable string;
  responseStatus : nullable string
}.

Record EventTime : Type := {
  dateTime : nullable string;
  date : nullable string
}.

Record CalendarEvent : Type := {
  event_id : nullable string;
  event_summary : nullable string;
  event_start : option EventTime;
  event_end : option EventTime;
  location : nullable string;
  attendees : nullable (list CalendarEventAttendee);
  colorId : nullable string
}.

Record ColorDefinition : Type := {
  background : string;
  foreground : string
}.

(** [`${cal.summary || 'Untitled'} (${cal.id || 'no-id'})`] *)
Definition calendar_line (cal : CalendarListEntry) : string :=
  or_text (cal_summary cal) "Untitled" +:+ " (" +:+ or_text (cal_id cal) "no-id" +:+ ")".

(** The text of [list-calendars]:
    [(response.data.items || []).map(...).join('\n')]. *)
Definition calendars_text (items : option (list CalendarListEntry)) : string :=
  String.concat nl (calendar_line <$> default [] items).

(** [`${a.email || 'no-email'} (${a.responseStatus || 'unknown'})`] *)
Definition attendee_text (a : CalendarEventAttendee) : string :=
  or_text (email a) "no-email" +:+ " (" +:+ or_text (responseStatus a) "unknown" +:+ ")".

(** [time?.dateTime || time?.date || 'unspecified'] *)
Definition time_text (time : option EventTime) : string :=
  match time with
  | Some t => or_text (dateTime t) (or_text (date t) "unspecified")
  | None => "unspecified"
  end.

Definition attendeeList (event : CalendarEvent) : string :=
  match attendees event with
  | Value l => nl +:+ "Attendees: " +:+ String.concat ", " (attendee_text <$> l)
  | Undefined | Null => EmptyString
  end.

Definition locationInfo (event : CalendarEvent) : string :=
  if present (location event)
  then nl +:+ "Location: " +:+ or_text (location event) EmptyString
  else EmptyString.

Definition colorInfo (event : CalendarEvent) : string :=
  if present (colorId event)
  then nl +:+ "Color: " +:+ or_text (colorId event) EmptyString
  else EmptyString.

(** The block of one event in the text of [list-events]. *)
Definition event_text (event : CalendarEvent) : string :=
  or_text (event_summary event) "Untitled" +:+ " (" +:+ or_text (event_id event) "no-id"
  +:+ ")" +:+ locationInfo event +:+ colorInfo event
  +:+ nl +:+ "Start: " +:+ time_text (event_start event)
  +:+ nl +:+ "End: " +:+ time_text (event_end event)
  +:+ attendeeList event +:+ nl.

(** The text of [list-events]. *)
Definition events_text (items : option (list CalendarEvent)) : string :=
  String.concat nl (event_text <$> default [] items).

(** One entry of a colour section. *)
Definition color_entry (entry : string * ColorDefinition) : string :=
  "  ID: " +:+ entry.1 +:+ nl +:+ "    Background: " +:+ background entry.2
  +:+ nl +:+ "    Foreground: " +:+ foreground entry.2.

(** [formatColorSection(title, colors)], with [colors] given by its
    entries in enumeration order ([None]: [undefined]). *)
Definition formatColorSection (title : string)
    (colors : option (list (string * ColorDefinition))) : string :=
  match colors with
  | None | Some [] => title +:+ ":" +:+ nl +:+ "  No colors available"
  | Some entries => title +:+ ":" +:+ nl +:+ String.concat nl (color_entry <$> entries)
  end.

(** The number of line feeds in a text. *)
Fixpoint newlines (s : string) : nat :=
  match s with
  | EmptyString => 0
  | String c rest =>
      (if Ascii.eqb c (Ascii.ascii_of_nat 10) then 1 else 0) + newlines rest
  end.

Definition single_line (v : nullable string) : Prop :=
  match v with Value s => newlines s = 0%nat | _ => True end.

(** Fields without line feeds. *)
Definition clean_attendee (a : CalendarEventAttendee) : Prop :=
  single_line (email a) ∧ single_line (responseStatus a).

Definition clean_time (time : option EventTime) : Prop :=
  match time with
  | Some t => single_line (dateTime t) ∧ single_line (date t)
  | None => True
  end.

Definition clean_event (event : CalendarEvent) : Prop :=
  single_line (event_summary event) ∧ single_line (event_id event) ∧
  single_line (location event) ∧ single_line (colorId event) ∧
  clean_time (event_start event) ∧ clean_time (event_end event) ∧
  match attendees event with
  | Value l => Forall clean_attendee l
  | _ => True
  end.

End Rendering.

(** ** More concrete worlds for the examples *)

Module MoreSamples.
Import Dispatcher.

Definition null_document : world :=
  World (Present mode_0o600 (Json JNull)) true 0 ∅ 0 None.

Definition array_document : world :=
  World (Present mode_0o600 (Json (JArr [JStr "ya29.old"]))) true 0 ∅ 0 None.

Definition saved_null_expiry : gmap string json :=
  <["expiry_date" := JNull]> Samples.saved.

Definition null_expiry : world :=
  Samples.world_with saved_null_expiry Samples.well_before
    (Some Samples.refreshed_with_token).


(** A notification that rotates the refresh token as well. *)
Definition rotated_both : jsobj :=
  {[ "access_token" := Some (JStr "ya29.rotated");
     "refresh_token" := Some (JStr "1//S") ]}.

Definition tokens_found (t : unit) : result bool * unit := (Ok true, t).
Definition validation_breaks (t : unit) : result bool * unit := (Throw GaxiosError, t).
Definition refuses_to_start (a : option Z) : result bool * option Z := (Ok false, a).
Definition stops (a : option Z) : result unit * option Z := (Ok tt, None).
Definition stop_fails (a : option Z) : result unit * option Z :=
  (Throw (SystemError "EADDRNOTAVAIL"), a).
Definition clears (t : unit) : result unit * unit := (Ok tt, t).

Definition without_keys : process (TM:=unit) (AS:=option Z) :=
  Process Missing None None None.

Definition listening : process (TM:=unit) (AS:=option Z) :=
  Process (Present mode_0o600 (Json Samples.keys)) None (Some tt) (Some (Some 3001)).

(** The [installed] entry of [Samples.keys], and the keys around it. *)
Definition installed_entry : gmap string json :=
  {[ "client_id" := JStr "id.apps.googleusercontent.com";
     "client_secret" := JStr "secret";
     "redirect_uris" := JArr [JStr "http://localhost"] ]}.

Definition keys_record : gmap string json :=
  {[ "installed" := JObj installed_entry ]}.

Definition sample_client : OAuth2Client :=
  NewOAuth2Client (Some (JStr "id.apps.googleusercontent.com")) (Some (JStr "secret"))
    (Some (JStr "http://localhost")).

Definition start_with (load : unit → result bool * unit)
    (start : option Z → result bool * option Z) :=
  main (TM:=unit) (AS:=option Z) (λ _, inr tt) (λ _, inr None) load start.

Definition two_calendars : list Rendering.CalendarListEntry :=
  [ {| Rendering.cal_id := Rendering.Value "primary";
       Rendering.cal_summary := Rendering.Value "Work" |};
    {| Rendering.cal_id := Rendering.Value "family@group.calendar.google.com";
       Rendering.cal_summary := Rendering.Null |} ].

Definition meeting : Rendering.CalendarEvent :=
  {| Rendering.event_id := Rendering.Value "ev1";
     Rendering.event_summary := Rendering.Value "Review";
     Rendering.event_start :=
       Some {| Rendering.dateTime := Rendering.Value "2024-05-01T10:00:00Z";
               Rendering.date := Rendering.Undefined |};
     Rendering.event_end :=
       Some {| Rendering.dateTime := Rendering.Undefined;
               Rendering.date := Rendering.Value "2024-05-01" |};
     Rendering.location := Rendering.Value "Room 2";
     Rendering.attendees := Rendering.Value [];
     Rendering.colorId := Rendering.Undefined |}.

Definition two_colors : list (string * Rendering.ColorDefinition) :=
  [ ("1", {| Rendering.background := "#a4bdfc"; Rendering.foreground := "#1d1d1d" |});
    ("2", {| Rendering.background := "#7ae7bf"; Rendering.foreground := "#1d1d1d" |}) ].

(** [0o644]: the owner may read and write, everybody else may read. *)
Definition mode_0o644 : Z := 6 * 64 + 4 * 8 + 4.

(** The saved record in a file of mode [0o644], one minute before it
    expires, with a provider that answers. *)
Definition shared_file : world :=
  World (Present mode_0o644 (Json (JObj Samples.saved))) true Samples.near_expiry ∅ 0
        (Some Samples.refreshed_with_token).

End MoreSamples.

(** ** Running the definitions symbolically *)

Ltac run_io :=
  cbv beta iota zeta delta
    [loadSavedTokens refresh_and_persist onTokens
     try_catch bind prepend ret throw emit gets modify lift
     fs_access fs_readFile fs_writeFile JSON_parse Tokens.console_error
     setCredentials Date_now on_tokens refreshAccessToken
     value after emitted
     tokenFile diskAccepts clock credentials listeners provider
     set_tokenFile set_credentials add_listener
     prop typeof negb orb andb app
     String.eqb Ascii.eqb Bool.eqb].

Ltac open_world w :=
  destruct w as [file ok now creds n prov]; cbn [tokenFile diskAccepts clock credentials listeners provider] in *; subst.

(** ** The handler of a [try]/[catch] decides whether anything escapes *)

Lemma try_catch_returns {W E A} (m : M W E A) (h : exn → M W E A) :
  (∀ e w, ∃ a, value (h e w) = Ok a) →
  ∀ w, ∃ a, value (try_catch m h w) = Ok a.
Proof.
  intros Hh w. unfold try_catch.
  destruct (m w) as [[a|e] w' evs]; cbn; [eauto|].
  destruct (Hh e w') as [a Ha]. destruct (h e w') as [v w'' evs'].
  cbn in *. eauto.
Qed.

Lemma value_prepend {W E A} (evs : list E) (r : run W E A) :
  value (prepend evs r) = value r.
Proof. by destruct r. Qed.

Lemma after_prepend {W E A} (evs : list E) (r : run W E A) :
  after (prepend evs r) = after r.
Proof. by destruct r. Qed.

Lemma emitted_prepend {W E A} (evs : list E) (r : run W E A) :
  emitted (prepend evs r) = evs ++ emitted r.
Proof. by destruct r. Qed.

(** ** [loadSavedTokens], path by path *)

Section LoadPaths.
Context `{Coercions}.

Lemma load_missing w :
  tokenFile w = Missing →
  loadSavedTokens w = Run (Ok false) w [Access; Tokens.ConsoleError "No token file found"].
Proof. intros Hf. open_world w. reflexivity. Qed.

Lemma load_unreadable w mode content :
  tokenFile w = Present mode content →
  owner_can_read mode = false →
  loadSavedTokens w
  = Run (Ok false) w [Access; ReadFile; Tokens.ConsoleError "Error loading tokens:"].
Proof. intros Hf Hr. open_world w. run_io. rewrite Hr. reflexivity. Qed.

Lemma load_malformed w mode :
  tokenFile w = Present mode Malformed →
  owner_can_read mode = true →
  loadSavedTokens w
  = Run (Ok false) w [Access; ReadFile; Tokens.ConsoleError "Error loading tokens:"].
Proof. intros Hf Hr. open_world w. run_io. rewrite Hr. reflexivity. Qed.

Lemma load_invalid_format w mode v :
  tokenFile w = Present mode (Json v) →
  owner_can_read mode = true →
  passes_guard v = false →
  loadSavedTokens w
  = Run (Ok false) w [Access; ReadFile; Tokens.ConsoleError "Invalid token format"].
Proof.
  intros Hf Hr Hg. open_world w. run_io. rewrite Hr.
  destruct v as [|b|z|s| |]; try discriminate Hg; try reflexivity.
  - cbn. by destruct b.
  - cbn. by destruct (negb (z =? 0)).
  - cbn. by destruct (negb (String.eqb s EmptyString)).
Qed.

Lemma refresh_and_persist_run w :
  refresh_and_persist w =
  match provider w with
  | None =>
      Run (Ok (Some false)) w [Refresh; Tokens.ConsoleError "Error refreshing auth token:"]
  | Some newTokens =>
      if truthy (field newTokens "access_token") then
        if write_accepted w then
          Run (Ok None) (set_credentials newTokens (written (JSON_stringify newTokens) w))
              [Refresh; WriteFile (JSON_stringify newTokens) mode_0o600]
        else
          Run (Ok (Some false)) w
              [Refresh; WriteFile (JSON_stringify newTokens) mode_0o600;
               Tokens.ConsoleError "Error refreshing auth token:"]
      else
        Run (Ok (Some false)) w [Refresh; Tokens.ConsoleError "Error refreshing auth token:"]
  end.
Proof.
  open_world w. unfold write_accepted, written. run_io.
  destruct prov as [newTokens|]; [|reflexivity].
  destruct (truthy (field newTokens "access_token")); [|reflexivity].
  destruct file as [|m content]; cbv beta iota.
  - by destruct ok.
  - destruct (owner_can_write m); cbv beta iota delta [negb andb]; [|reflexivity].
    by destruct ok.
Qed.

(** A readable file holding an object (or an array): the credentials are
    installed, then the expiry test decides. *)
Lemma load_object w mode v :
  tokenFile w = Present mode (Json v) →
  owner_can_read mode = true →
  passes_guard v = true →
  let w0 := set_credentials (spread v) w in
  loadSavedTokens w =
  if isExpired (clock w) (own_props v !! "expiry_date")
     && truthy (own_props v !! "refresh_token")
  then
    match refresh_and_persist w0 with
    | Run (Ok None) w' evs => Run (Ok true) (add_listener w') (Access :: ReadFile :: evs)
    | Run (Ok (Some b)) w' evs => Run (Ok b) w' (Access :: ReadFile :: evs)
    | Run (Throw e) w' evs =>
        Run (Ok false) w' (Access :: ReadFile :: evs ++ [Tokens.ConsoleError "Error loading tokens:"])
    end
  else Run (Ok true) (add_listener w0) [Access; ReadFile].
Proof.
  intros Hf Hr Hg w0. subst w0. open_world w.
  cbv beta iota zeta delta
    [loadSavedTokens try_catch bind prepend ret throw emit gets modify lift
     fs_access fs_readFile JSON_parse Tokens.console_error
     setCredentials Date_now on_tokens value after emitted
     tokenFile diskAccepts clock credentials listeners provider
     set_credentials add_listener negb].
  rewrite Hr.
  destruct v as [| | | |items|fields]; try discriminate Hg;
    cbv beta iota zeta delta
      [prop typeof truthy truthy_json negb orb String.eqb Ascii.eqb Bool.eqb
       bind prepend ret lift Date_now gets setCredentials modify set_credentials
       tokenFile diskAccepts clock credentials listeners provider];
    match goal with
    | |- context [isExpired ?a ?b && ?c] => destruct (isExpired a b && c)
    end;
    try reflexivity;
    match goal with
    | |- context [refresh_and_persist ?x] =>
        destruct (refresh_and_persist x) as [[[b|]|e] w' evs];
        cbn [app]; rewrite ?app_nil_r; reflexivity
    end.
Qed.

(** The same for a credential record, with the outcome of the refresh
    spelled out. *)
Lemma load_record w mode t :
  tokenFile w = Present mode (Json (JObj t)) →
  owner_can_read mode = true →
  let w0 := set_credentials (Some <$> t) w in
  loadSavedTokens w =
  if isExpired (clock w) (t !! "expiry_date") && truthy (t !! "refresh_token")
  then
    match provider w with
    | None =>
        Run (Ok false) w0
            [Access; ReadFile; Refresh; Tokens.ConsoleError "Error refreshing auth token:"]
    | Some newTokens =>
        if truthy (field newTokens "access_token") then
          if owner_can_write mode && diskAccepts w then
            Run (Ok true)
                (add_listener
                   (set_credentials newTokens
                      (set_tokenFile (Present mode (Json (JSON_stringify newTokens))) w0)))
                [Access; ReadFile; Refresh;
                 WriteFile (JSON_stringify newTokens) mode_0o600]
          else
            Run (Ok false) w0
                [Access; ReadFile; Refresh;
                 WriteFile (JSON_stringify newTokens) mode_0o600;
                 Tokens.ConsoleError "Error refreshing auth token:"]
        else
          Run (Ok false) w0
              [Access; ReadFile; Refresh; Tokens.ConsoleError "Error refreshing auth token:"]
    end
  else Run (Ok true) (add_listener w0) [Access; ReadFile].
Proof.
  intros Hf Hr w0.
  rewrite (load_object w mode (JObj t) Hf Hr eq_refl).
  change (own_props (JObj t)) with t.
  change (spread (JObj t)) with (Some <$> t). fold w0.
  destruct (isExpired _ _ && _); [|reflexivity].
  rewrite refresh_and_persist_run.
  unfold write_accepted, written. subst w0. open_world w.
  cbn [tokenFile diskAccepts provider set_credentials set_tokenFile
       clock credentials listeners].
  destruct prov as [newTokens|]; [|reflexivity].
  destruct (truthy (field newTokens "access_token")); [|reflexivity].
  by destruct (owner_can_write mode && ok).
Qed.

(** With a numeric [expiry_date] and a clock that is not before the
    epoch, the test is the comparison with the five-minute margin. *)
Lemma isExpired_number now e :
  0 <= now →
  isExpired now (Some (JNum e)) = (e - 5 * 60 * 1000 <=? now).
Proof.
  intros Hnow. unfold isExpired. cbn [truthy truthy_json ToNumber].
  rewrite Z.geb_leb.
  destruct (Z.eqb_spec e 0) as [->|Hne]; cbn [negb]; [|reflexivity].
  symmetry. apply Z.leb_le. lia.
Qed.

Lemma isExpired_undefined now : isExpired now undefined = true.
Proof. reflexivity. Qed.

End LoadPaths.

(** ** The refresh policy of [loadSavedTokens] *)

Section RefreshPolicy.
Context `{Coercions}.

(** C5.  For a readable credential record with a numeric [expiry_date] and
    a clock that is not before the epoch, [loadSavedTokens] asks the
    provider for a new access token exactly when
    [Date.now() >= expiry_date - 5 minutes] and [refresh_token] holds a
    truthy value, and then exactly once.  When the refresh yields an access token and
    the file system takes the write, the new credentials are what the file
    holds and what the client has installed, and the result is [true];
    when the refresh is rejected or yields no access token, the result is
    [false], returned and not thrown. *)
Theorem refresh_exactly_when_due (w : world) (mode : Z) (t : gmap string json) (e : Z) :
  tokenFile w = Present mode (Json (JObj t)) →
  owner_can_read mode = true →
  t !! "expiry_date" = Some (JNum e) →
  0 <= clock w →
  let r := loadSavedTokens w in
  let due := clock w >= e - 5 * 60 * 1000 ∧ truthy (t !! "refresh_token") = true in
  (due → refresh_calls (emitted r) = 1%nat) ∧
  (¬ due → refresh_calls (emitted r) = 0%nat) ∧
  (due → ∀ newTokens,
     provider w = Some newTokens →
     truthy (field newTokens "access_token") = true →
     owner_can_write mode = true → diskAccepts w = true →
     value r = Ok true ∧
     stored (tokenFile (after r)) = Some (JSON_stringify newTokens) ∧
     credentials (after r) = newTokens) ∧
  (due →
     provider w = None ∨
     (∃ newTokens, provider w = Some newTokens ∧
                   truthy (field newTokens "access_token") = false) →
     value r = Ok false).
Proof.
  intros Hf Hr He Hnow r due. subst r.
  rewrite (load_record w mode t Hf Hr), He, (isExpired_number _ _ Hnow).
  assert (Hdue : due ↔ (e - 5 * 60 * 1000 <=? clock w) && truthy (t !! "refresh_token") = true).
  { unfold due. rewrite andb_true_iff, Z.leb_le. split; intros [? ?]; split; auto; lia. }
  destruct ((e - 5 * 60 * 1000 <=? clock w) && truthy (t !! "refresh_token")).
  - split; [|split; [|split]].
    + intros _. destruct (provider w) as [nt|]; [|reflexivity].
      destruct (truthy (field nt "access_token")); [|reflexivity].
      by destruct (owner_can_write mode && diskAccepts w).
    + intros Hn. destruct Hn. by apply Hdue.
    + intros _ nt Hp Hat Hw Hd. rewrite Hp, Hat, Hw, Hd. by cbn.
    + intros _ [Hp|(nt & Hp & Hat)]; rewrite Hp; [reflexivity|].
      by rewrite Hat.
  - split; [|split; [|split]]; try (intros Hd; apply Hdue in Hd; discriminate).
    reflexivity.
Qed.

(** C8.  For a readable credential record whose [expiry_date] is more
    than five minutes after the clock (itself not before the epoch),
    [loadSavedTokens] returns [true] after reading the file: the provider
    is not asked for anything and the credential file is not written. *)
Theorem fresh_credential_no_side_effects
    (w : world) (mode : Z) (t : gmap string json) (e : Z) :
  tokenFile w = Present mode (Json (JObj t)) →
  owner_can_read mode = true →
  t !! "expiry_date" = Some (JNum e) →
  0 <= clock w →
  clock w + 5 * 60 * 1000 < e →
  let r := loadSavedTokens w in
  value r = Ok true ∧
  refresh_calls (emitted r) = 0%nat ∧
  file_writes (emitted r) = [] ∧
  tokenFile (after r) = tokenFile w ∧
  emitted r = [Access; ReadFile].
Proof.
  intros Hf Hr He Hnow Hfresh r. subst r.
  rewrite (load_record w mode t Hf Hr), He, (isExpired_number _ _ Hnow).
  replace (e - 5 * 60 * 1000 <=? clock w) with false
    by (symmetry; apply Z.leb_gt; lia).
  by repeat split.
Qed.

(** C9.  For a readable credential record with no [expiry_date] field, the
    expiry test answers "expired" whatever the clock says; when a
    [refresh_token] is set the provider is asked exactly once, and the
    result is [true] only with refreshed credentials installed. *)
Theorem missing_expiry_is_expired (w : world) (mode : Z) (t : gmap string json) :
  tokenFile w = Present mode (Json (JObj t)) →
  owner_can_read mode = true →
  t !! "expiry_date" = None →
  let r := loadSavedTokens w in
  isExpired (clock w) (t !! "expiry_date") = true ∧
  (truthy (t !! "refresh_token") = true →
     refresh_calls (emitted r) = 1%nat ∧
     (value r = Ok true →
        ∃ newTokens, provider w = Some newTokens ∧
                     truthy (field newTokens "access_token") = true ∧
                     credentials (after r) = newTokens)).
Proof.
  intros Hf Hr He r. subst r.
  rewrite (load_record w mode t Hf Hr), He, isExpired_undefined.
  split; [reflexivity|]. intros ->. cbn [andb].
  destruct (provider w) as [nt|]; [|by split].
  destruct (truthy (field nt "access_token")) eqn:Hat; [|by split].
  destruct (owner_can_write mode && diskAccepts w); [|by split].
  split; [reflexivity|]. intros _. by exists nt.
Qed.

(** When the refresh is rejected, yields no access token, or cannot be
    saved, [loadSavedTokens] answers [false]. *)
Lemma load_false_when_refresh_fails (w : world) (mode : Z) (t : gmap string json) :
  tokenFile w = Present mode (Json (JObj t)) →
  owner_can_read mode = true →
  isExpired (clock w) (t !! "expiry_date") = true →
  truthy (t !! "refresh_token") = true →
  match provider w with
  | None => True
  | Some newTokens =>
      truthy (field newTokens "access_token") = false ∨
      owner_can_write mode && diskAccepts w = false
  end →
  value (loadSavedTokens w) = Ok false.
Proof.
  intros Hf Hr He Hrt Hfail.
  rewrite (load_record w mode t Hf Hr), He, Hrt. cbn [andb].
  destruct (provider w) as [nt|]; [|reflexivity].
  destruct Hfail as [->| ->]; [reflexivity|].
  by destruct (truthy (field nt "access_token")).
Qed.

End RefreshPolicy.

(** ** What reaches the credential file *)

(** C1.  The stored record has a refresh token and a scope, and the clock
    is inside the five-minute margin.  When the refreshed credentials carry
    neither, the file written by [loadSavedTokens] holds neither; when they
    carry the refresh token but not the scope, the file holds no scope.  In
    both runs the file ends up holding the refreshed credentials and
    nothing of the record that was there. *)
Theorem refresh_write_drops_stored_fields :
  Samples.saved !! "refresh_token" = Some (JStr "1//R") ∧
  Samples.saved !! "scope" = Some (JStr "https://www.googleapis.com/auth/calendar") ∧
  value (Samples.load (Samples.inside_margin (Some Samples.refreshed_bare))) = Ok true ∧
  stored (tokenFile (after (Samples.load (Samples.inside_margin (Some Samples.refreshed_bare)))))
  = Some (JSON_stringify Samples.refreshed_bare) ∧
  persisted_field
    (tokenFile (after (Samples.load (Samples.inside_margin (Some Samples.refreshed_bare)))))
    "refresh_token" = undefined ∧
  persisted_field
    (tokenFile (after (Samples.load (Samples.inside_margin (Some Samples.refreshed_bare)))))
    "scope" = undefined ∧
  value (Samples.load (Samples.inside_margin (Some Samples.refreshed_with_token))) = Ok true ∧
  persisted_field
    (tokenFile (after (Samples.load (Samples.inside_margin (Some Samples.refreshed_with_token)))))
    "refresh_token" = Some (JStr "1//R") ∧
  persisted_field
    (tokenFile (after (Samples.load (Samples.inside_margin (Some Samples.refreshed_with_token)))))
    "scope" = undefined.
Proof. repeat apply conj; vm_compute; reflexivity. Qed.

(** C2.  The stored record expired an hour ago and has no refresh token:
    [loadSavedTokens] asks the provider for nothing, leaves the expired
    credentials installed and returns [true]. *)
Theorem expired_without_refresh_token_is_accepted :
  Samples.saved_without_refresh !! "refresh_token" = None ∧
  @isExpired decimal_coercions (clock Samples.expired_no_refresh)
    (Samples.saved_without_refresh !! "expiry_date") = true ∧
  value (Samples.load Samples.expired_no_refresh) = Ok true ∧
  refresh_calls (emitted (Samples.load Samples.expired_no_refresh)) = 0%nat ∧
  credentials (after (Samples.load Samples.expired_no_refresh))
  = Some <$> Samples.saved_without_refresh ∧
  tokenFile (after (Samples.load Samples.expired_no_refresh))
  = tokenFile Samples.expired_no_refresh.
Proof. repeat apply conj; vm_compute; reflexivity. Qed.

(** C6.  [loadSavedTokens] returns a boolean in every world.  A missing file
    gives [false] under the label "No token file found"; a file that cannot
    be read, or whose text is not JSON, gives [false] under the label
    "Error loading tokens:", and leaves the world as it was. *)
Theorem load_never_throws `{Coercions} (w : world) :
  let r := loadSavedTokens w in
  (∃ b, value r = Ok b) ∧
  (tokenFile w = Missing →
     value r = Ok false ∧ error_labels (emitted r) = ["No token file found"]) ∧
  (∀ mode content,
     tokenFile w = Present mode content →
     owner_can_read mode = false ∨ content = Malformed →
     value r = Ok false ∧
     error_labels (emitted r) = ["Error loading tokens:"] ∧
     after r = w).
Proof.
  intros r. subst r. split; [|split].
  - apply try_catch_returns. intros e w'. by exists false.
  - intros Hf. by rewrite (load_missing w Hf).
  - intros mode content Hf Hbad.
    destruct (owner_can_read mode) eqn:Hr.
    + destruct Hbad as [?| ->]; [discriminate|].
      by rewrite (load_malformed w mode Hf Hr).
    + by rewrite (load_unreadable w mode content Hf Hr).
Qed.

(** The mode [0o600]: the owner may read and write, nobody else may do
    anything. *)
Lemma mode_0o600_owner_only :
  owner_can_read mode_0o600 = true ∧
  owner_can_write mode_0o600 = true ∧
  Z.land mode_0o600 (Z.lnot (Z.lor (Z.shiftl 1 8) (Z.shiftl 1 7))) = 0.
Proof. by vm_compute. Qed.

Lemma load_writes_owner_only `{Coercions} (w : world) :
  Forall owner_only (file_writes (emitted (loadSavedTokens w))).
Proof.
  destruct (tokenFile w) as [|mode [|v]] eqn:Hf.
  - rewrite (load_missing w Hf). constructor.
  - destruct (owner_can_read mode) eqn:Hr.
    + rewrite (load_malformed w mode Hf Hr). constructor.
    + rewrite (load_unreadable w mode _ Hf Hr). constructor.
  - destruct (owner_can_read mode) eqn:Hr;
      [|rewrite (load_unreadable w mode _ Hf Hr); constructor].
    destruct (passes_guard v) eqn:Hg;
      [|rewrite (load_invalid_format w mode v Hf Hr Hg); constructor].
    rewrite (load_object w mode v Hf Hr Hg).
    destruct (isExpired _ _ && _); [|constructor].
    rewrite refresh_and_persist_run.
    destruct (provider _) as [nt|]; [|constructor].
    destruct (truthy (field nt "access_token")); [|constructor].
    destruct (write_accepted _); repeat constructor.
Qed.

Lemma onTokens_writes_owner_only (newTokens : jsobj) (w : world) :
  Forall owner_only (file_writes (emitted (onTokens newTokens w))).
Proof.
  open_world w. run_io.
  destruct file as [|mode [|cur]]; cbv beta iota; try by constructor.
  - destruct (owner_can_read mode); by constructor.
  - destruct (owner_can_read mode); cbv beta iota; [|by constructor].
    destruct (truthy (field newTokens "refresh_token")); cbv beta iota;
      [|destruct cur; cbv beta iota; try by constructor];
      destruct (owner_can_write mode); cbv beta iota delta [negb];
      try (by repeat constructor);
      destruct ok; by repeat constructor.
Qed.

(** Neither path creates the file or touches its permissions: both write
    only after having read it. *)
Lemma load_keeps_mode `{Coercions} (w : world) :
  file_mode (tokenFile (after (loadSavedTokens w))) = file_mode (tokenFile w).
Proof.
  destruct (tokenFile w) as [|mode [|v]] eqn:Hf.
  - rewrite (load_missing w Hf). cbn [after]. by rewrite Hf.
  - destruct (owner_can_read mode) eqn:Hr.
    + rewrite (load_malformed w mode Hf Hr). cbn [after]. by rewrite Hf.
    + rewrite (load_unreadable w mode _ Hf Hr). cbn [after]. by rewrite Hf.
  - destruct (owner_can_read mode) eqn:Hr;
      [|rewrite (load_unreadable w mode _ Hf Hr); cbn [after]; by rewrite Hf].
    destruct (passes_guard v) eqn:Hg;
      [|rewrite (load_invalid_format w mode v Hf Hr Hg); cbn [after]; by rewrite Hf].
    rewrite (load_object w mode v Hf Hr Hg).
    destruct (isExpired _ _ && _);
      [|cbn [after tokenFile add_listener set_credentials]; by rewrite Hf].
    rewrite refresh_and_persist_run. unfold write_accepted, written.
    cbn [provider tokenFile diskAccepts set_credentials]. rewrite Hf.
    destruct (provider w) as [nt|];
      [|cbn [after tokenFile set_credentials]; by rewrite Hf].
    destruct (truthy (field nt "access_token"));
      [|cbn [after tokenFile set_credentials]; by rewrite Hf].
    destruct (owner_can_write mode && diskAccepts w);
      cbn [after tokenFile add_listener set_credentials set_tokenFile];
      [reflexivity | by rewrite Hf].
Qed.

Lemma onTokens_keeps_mode (newTokens : jsobj) (w : world) :
  file_mode (tokenFile (after (onTokens newTokens w))) = file_mode (tokenFile w).
Proof.
  open_world w. run_io.
  destruct file as [|mode [|cur]]; cbv beta iota; try reflexivity.
  - by destruct (owner_can_read mode).
  - destruct (owner_can_read mode); cbv beta iota; [|reflexivity].
    destruct (truthy (field newTokens "refresh_token")); cbv beta iota;
      [|destruct cur; cbv beta iota; try reflexivity];
      destruct (owner_can_write mode); cbv beta iota delta [negb];
      try reflexivity;
      by destruct ok.
Qed.

(** Every write of the credential file, by [loadSavedTokens] and by the
    handler of the token-update notification alike, is issued with the
    option [mode: 0o600], the mode in which only the owner may read and
    write; and neither of the two changes the permissions the file has. *)
Theorem every_write_is_owner_only `{Coercions} (w : world) (newTokens : jsobj) :
  let loaded := loadSavedTokens w in
  let updated := onTokens newTokens w in
  Forall owner_only (file_writes (emitted loaded)) ∧
  Forall owner_only (file_writes (emitted updated)) ∧
  file_mode (tokenFile (after loaded)) = file_mode (tokenFile w) ∧
  file_mode (tokenFile (after updated)) = file_mode (tokenFile w) ∧
  owner_can_read mode_0o600 = true ∧
  owner_can_write mode_0o600 = true ∧
  Z.land mode_0o600 (Z.lnot (Z.lor (Z.shiftl 1 8) (Z.shiftl 1 7))) = 0.
Proof.
  cbv zeta. split; [apply load_writes_owner_only|].
  split; [apply onTokens_writes_owner_only|].
  split; [apply load_keeps_mode|].
  split; [apply onTokens_keeps_mode|].
  apply mode_0o600_owner_only.
Qed.

(** C7.  The credential file exists with mode [0o644], readable by the group
    and by everybody else.  [loadSavedTokens] refreshes and writes the new
    credentials with the option [mode: 0o600]; the handler of the
    token-update notification writes with the same option.  After either
    write the file holds the new record and is still of mode [0o644]: the
    option is given to a file the call creates, and both paths write only a
    file they have just read. *)
Theorem loose_permissions_survive_every_write :
  file_mode (tokenFile MoreSamples.shared_file) = Some MoreSamples.mode_0o644 ∧
  others_can_read MoreSamples.mode_0o644 = true ∧
  value (Samples.load MoreSamples.shared_file) = Ok true ∧
  file_writes (emitted (Samples.load MoreSamples.shared_file))
  = [(JSON_stringify Samples.refreshed_with_token, mode_0o600)] ∧
  stored (tokenFile (after (Samples.load MoreSamples.shared_file)))
  = Some (JSON_stringify Samples.refreshed_with_token) ∧
  file_mode (tokenFile (after (Samples.load MoreSamples.shared_file)))
  = Some MoreSamples.mode_0o644 ∧
  value (onTokens Samples.rotated MoreSamples.shared_file) = Ok tt ∧
  (file_writes (emitted (onTokens Samples.rotated MoreSamples.shared_file))).*2
  = [mode_0o600] ∧
  persisted_field (tokenFile (after (onTokens Samples.rotated MoreSamples.shared_file)))
    "access_token" = Some (JStr "ya29.rotated") ∧
  file_mode (tokenFile (after (onTokens Samples.rotated MoreSamples.shared_file)))
  = Some MoreSamples.mode_0o644.
Proof. repeat apply conj; vm_compute; reflexivity. Qed.

(** ** The token-update notification *)

(** The handler on a readable file that holds a document from which the
    refresh token to keep can be read. *)
Lemma onTokens_run (newTokens : jsobj) (w : world) (mode : Z) (cur : json) (rt : jsval) :
  tokenFile w = Present mode (Json cur) →
  owner_can_read mode = true →
  (if truthy (field newTokens "refresh_token")
   then inr (field newTokens "refresh_token")
   else prop cur "refresh_token") = inr rt →
  let doc := JSON_stringify (<["refresh_token" := rt]> (newTokens ∪ spread cur)) in
  onTokens newTokens w =
  if owner_can_write mode && diskAccepts w then
    Run (Ok tt) (set_tokenFile (Present mode (Json doc)) w)
        [ReadFile; WriteFile doc mode_0o600]
  else
    Run (Ok tt) w
        [ReadFile; WriteFile doc mode_0o600;
         Tokens.ConsoleError "Error saving updated tokens:"].
Proof.
  intros Hf Hr Hrt doc. subst doc. open_world w.
  cbv beta iota zeta delta
    [onTokens try_catch bind prepend ret throw emit gets modify lift
     fs_readFile fs_writeFile JSON_parse Tokens.console_error
     value after emitted tokenFile diskAccepts set_tokenFile app].
  rewrite Hr. cbv beta iota.
  destruct (truthy (field newTokens "refresh_token")).
  - injection Hrt as <-. cbv beta iota.
    destruct (owner_can_write mode); cbv beta iota delta [negb andb]; [|reflexivity].
    by destruct ok.
  - rewrite Hrt. cbv beta iota.
    destruct (owner_can_write mode); cbv beta iota delta [negb andb]; [|reflexivity].
    by destruct ok.
Qed.

(** C3.  The file holds a record with [refresh_token: R]; the notification
    carries [access_token: X] and no refresh token; the file can be read and
    written.  Then the handler leaves in the file a record with
    [access_token: X] and [refresh_token: R] in which every field the
    notification does not mention is as it was; for the notification
    [{access_token: X}] that record is the stored one with [access_token]
    set to [X]. *)
Theorem token_update_keeps_refresh_token
    (w : world) (mode : Z) (cur : gmap string json) (newTokens : jsobj) (X R : json) :
  tokenFile w = Present mode (Json (JObj cur)) →
  owner_can_read mode = true →
  owner_can_write mode = true →
  diskAccepts w = true →
  cur !! "refresh_token" = Some R →
  newTokens !! "access_token" = Some (Some X) →
  truthy (field newTokens "refresh_token") = false →
  let r := onTokens newTokens w in
  ∃ updated : gmap string json,
    value r = Ok tt ∧
    tokenFile (after r) = Present mode (Json (JObj updated)) ∧
    updated !! "access_token" = Some X ∧
    updated !! "refresh_token" = Some R ∧
    (∀ k, newTokens !! k = None → updated !! k = cur !! k) ∧
    (newTokens = {[ "access_token" := Some X ]} → updated = <["access_token" := X]> cur).
Proof.
  intros Hf Hr Hw Hd HR HX Hno r. subst r.
  rewrite (onTokens_run newTokens w mode (JObj cur) (Some R) Hf Hr)
    by (rewrite Hno; cbn; by rewrite HR).
  rewrite Hw, Hd. cbn [andb value after tokenFile set_tokenFile JSON_stringify].
  change (spread (JObj cur)) with (Some <$> cur).
  set (updated := omap id (<["refresh_token" := Some R]> (newTokens ∪ (Some <$> cur)))).
  assert (Hrt : updated !! "refresh_token" = Some R).
  { unfold updated. by rewrite lookup_omap, lookup_insert_eq. }
  assert (Hother : ∀ k, k ≠ "refresh_token" →
            updated !! k = (newTokens ∪ (Some <$> cur)) !! k ≫= id).
  { intros k Hk. unfold updated. by rewrite lookup_omap, lookup_insert_ne. }
  assert (Hkeep : ∀ k, newTokens !! k = None → updated !! k = cur !! k).
  { intros k Hk. destruct (decide (k = "refresh_token")) as [->|Hne].
    - by rewrite Hrt, HR.
    - rewrite (Hother k Hne), lookup_union_r, lookup_fmap by done.
      by destruct (cur !! k). }
  assert (Hat : updated !! "access_token" = Some X).
  { rewrite Hother by done.
    by rewrite (lookup_union_Some_l _ _ _ _ HX). }
  exists updated. repeat split; try done.
  intros ->. apply map_eq. intros k.
  destruct (decide (k = "access_token")) as [->|Hne].
  - by rewrite Hat, lookup_insert_eq.
  - rewrite lookup_insert_ne by done. apply Hkeep.
    by rewrite lookup_singleton_ne.
Qed.

(** ** The authentication gate of the tool-call handler *)

Import Dispatcher.

Ltac run_dispatcher :=
  cbv beta iota zeta delta
    [CallTool dispatch rendered main on_tokenManager on_authServer calendar
     Dispatcher.console_log Dispatcher.console_error
     try_catch bind prepend ret throw emit gets modify lift
     value after emitted negb
     keysFile oauth2Client tokenManager authServer
     set_oauth2Client set_tokenManager set_authServer].

Lemma interactive_message_text :
  authMessage (Some 3000) =
  "Authentication required. Please visit http://localhost:3000 to authenticate with Google Calendar. If this port is unavailable, the server will try ports 3001-3004.".
Proof. by vm_compute. Qed.

Lemma messages_name_url_and_command :
  contains "http://localhost:3000" (authMessage (Some 3000)) = true ∧
  contains "npm run auth" headless_message = true ∧
  authMessage (Some 3000) ≠ headless_message.
Proof. split; [|split]; [by vm_compute..|]. vm_compute. discriminate. Qed.

Section Gate.
Context {TM AS : Type}.
Variable new_TokenManager : OAuth2Client → exn + TM.
Variable new_AuthServer : OAuth2Client → exn + AS.
Variable tm_loadSavedTokens : TM → result bool * TM.
Variable tm_validateTokens : TM → result bool * TM.
Variable as_start : AS → result bool * AS.
Variable calendar_api : api_method → jsval → exn + jsval.
Variable zod_parse : schema → jsval → exn + json.
Variable render : api_method → jsval → exn + string.

Local Abbreviation handle :=
  (CallTool (AS:=AS) tm_validateTokens calendar_api zod_parse render).
Local Abbreviation start :=
  (main new_TokenManager new_AuthServer tm_loadSavedTokens as_start).
Local Abbreviation is_serving :=
  (serving new_TokenManager new_AuthServer tm_loadSavedTokens tm_validateTokens
           as_start calendar_api zod_parse render).

(** The handler with the gate's answer known. *)
Lemma CallTool_rejected name args (p : process) t t' :
  tokenManager p = Some t →
  tm_validateTokens t = (Ok false, t') →
  handle name args p =
  Run (Throw (Error (authMessage (match authServer p with
                                  | Some _ => Some 3000
                                  | None => None
                                  end))))
      (set_tokenManager t' p) [].
Proof.
  intros Ht Hv. destruct p as [kf oc tmo aso].
  cbn [tokenManager] in Ht. subst tmo. run_dispatcher. rewrite Hv.
  reflexivity.
Qed.

Lemma CallTool_gate_not_passed name args (p : process) :
  (∀ t t', tokenManager p = Some t → tm_validateTokens t ≠ (Ok true, t')) →
  emitted (handle name args p) = [].
Proof.
  intros Hno. destruct p as [kf oc [t|] aso]; [|reflexivity].
  run_dispatcher. destruct (tm_validateTokens t) as [[[|]|e] t'] eqn:Hv;
    try reflexivity.
  by destruct (Hno t t' eq_refl).
Qed.

(** The module-level variables are assigned by [main] alone. *)
Lemma dispatch_keeps_process name args (p : process) :
  after (dispatch (TM:=TM) (AS:=AS) calendar_api zod_parse render name args p) = p.
Proof.
  run_dispatcher.
  repeat match goal with
         | |- context [String.eqb name ?s] => destruct (String.eqb name s)
         end;
    repeat match goal with
           | |- context [zod_parse ?sc ?a] => destruct (zod_parse sc a)
           | |- context [calendar_api ?m ?a] => destruct (calendar_api m a)
           | |- context [prop_of ?c ?k] => destruct (prop_of c k)
         | |- context [render ?m ?v] => destruct (render m v)
           | |- context [strict_eq_string ?v ?k] => destruct (strict_eq_string v k)
           | _ => progress cbv beta iota
           end;
    reflexivity.
Qed.

Lemma CallTool_keeps_authServer name args (p : process) :
  authServer (after (handle name args p)) = authServer p ∧
  (is_Some (tokenManager p) → is_Some (tokenManager (after (handle name args p)))).
Proof.
  destruct p as [kf oc [t|] aso]; [|by split].
  unfold CallTool, bind, on_tokenManager.
  cbn [tokenManager set_tokenManager keysFile oauth2Client authServer].
  destruct (tm_validateTokens t) as [[[|]|e] t'];
    cbn [negb gets throw prepend after authServer tokenManager]; try by split.
  rewrite !after_prepend, dispatch_keeps_process. by split.
Qed.

(** A [main] that ends in [Serving] has assigned both collaborators. *)
Lemma main_assigns_collaborators (p0 : process) :
  value (start p0) = Ok Serving →
  is_Some (tokenManager (after (start p0))) ∧
  is_Some (authServer (after (start p0))).
Proof.
  run_dispatcher.
  destruct (initializeOAuth2Client p0) as [[c|e] [kf oc tmo aso] evs];
    cbv beta iota; [|discriminate].
  destruct (new_TokenManager c) as [e|t]; cbv beta iota; [discriminate|].
  destruct (new_AuthServer c) as [e|a]; cbv beta iota; [discriminate|].
  destruct (tm_loadSavedTokens t) as [[[|]|e] t']; cbv beta iota;
    try discriminate.
  - intros _. by split.
  - destruct (as_start a) as [[[|]|e] a']; cbv beta iota; try discriminate.
    intros _. by split.
Qed.

Lemma serving_has_collaborators (p : process) :
  is_serving p → is_Some (tokenManager p) ∧ is_Some (authServer p).
Proof.
  induction 1 as [p0 r Hr Hv|p name args Hp [IHt IHa]|p t t' a a' Hp _ Ht Ha].
  - subst r. by apply main_assigns_collaborators.
  - destruct (CallTool_keeps_authServer name args p) as [Ha Ht].
    split; [by apply Ht | by rewrite Ha].
  - by split.
Qed.

(** C4.  Whatever the tool name and the arguments: when the token manager
    is in place and [validateTokens] answers [false], the handler throws
    an error whose message is the one naming the callback server's URL or
    the one naming the manual command, and it does nothing else: the state
    is the one the validation left and no event was emitted.  More
    generally, a request to the calendar API appears among the events of
    an invocation only when [validateTokens] answered [true]. *)
Theorem gate_precedes_every_tool (name : string) (args : jsval) (p : process) :
  let r := handle name args p in
  (∀ t t',
     tokenManager p = Some t →
     tm_validateTokens t = (Ok false, t') →
     ∃ message,
       value r = Throw (Error message) ∧
       (message = authMessage (Some 3000) ∨ message = headless_message) ∧
       emitted r = [] ∧
       after r = set_tokenManager t' p) ∧
  (∀ m a,
     CalendarCall m a ∈ emitted r →
     ∃ t t', tokenManager p = Some t ∧ tm_validateTokens t = (Ok true, t')) ∧
  contains "http://localhost:3000" (authMessage (Some 3000)) = true ∧
  contains "npm run auth" headless_message = true.
Proof.
  intros r. subst r. split; [|split; [|split]];
    [| |apply messages_name_url_and_command..].
  - intros t t' Ht Hv. rewrite (CallTool_rejected name args p t t' Ht Hv).
    eexists. split; [reflexivity|]. split; [|by split].
    destruct (authServer p); [by left | by right].
  - intros m a Hin.
    destruct (tokenManager p) as [t|] eqn:Ht.
    + destruct (tm_validateTokens t) as [[[|]|e] t'] eqn:Hv; [by eauto|..];
        rewrite CallTool_gate_not_passed in Hin;
        try (by inversion Hin);
        intros t0 t0' Ht0; rewrite Ht in Ht0; injection Ht0 as <-;
        rewrite Hv; discriminate.
    + rewrite CallTool_gate_not_passed in Hin; [by inversion Hin|].
      intros t0 t0' Ht0. rewrite Ht in Ht0. discriminate.
Qed.

(** C10.  In every state in which the server is serving, the auth server
    variable holds an object, so whenever [validateTokens] answers [false]
    the error thrown by the handler carries the message that names
    [http://localhost:3000], whatever state that auth server object is in
    (in particular whichever port it is bound to); the message naming the
    manual command is never the one thrown. *)
Theorem serving_gate_names_port_3000 (p : process) :
  is_serving p →
  (∃ a, authServer p = Some a) ∧
  ∀ name args t t',
    tokenManager p = Some t →
    tm_validateTokens t = (Ok false, t') →
    value (handle name args p) = Throw (Error (authMessage (Some 3000))) ∧
    contains "http://localhost:3000" (authMessage (Some 3000)) = true ∧
    value (handle name args p) ≠ Throw (Error headless_message).
Proof.
  intros Hs. destruct (serving_has_collaborators p Hs) as [_ [a Ha]].
  split; [by exists a|]. intros name args t t' Ht Hv.
  rewrite (CallTool_rejected name args p t t' Ht Hv), Ha.
  cbn [value]. split; [reflexivity|]. split.
  - apply messages_name_url_and_command.
  - intros Heq.
    apply (f_equal (λ v, match v with
                         | Throw (Error message) => message
                         | _ => EmptyString
                         end)) in Heq.
    by apply messages_name_url_and_command in Heq.
Qed.

End Gate.

(** ** The statements at concrete inputs *)

Lemma refresh_exactly_when_due_witness :
  refresh_calls
    (emitted (Samples.load (Samples.inside_margin (Some Samples.refreshed_with_token))))
  = 1%nat ∧
  value (Samples.load (Samples.inside_margin (Some Samples.refreshed_with_token)))
  = Ok true ∧
  credentials (after (Samples.load (Samples.inside_margin (Some Samples.refreshed_with_token))))
  = Samples.refreshed_with_token.
Proof.
  destruct (@refresh_exactly_when_due decimal_coercions
              (Samples.inside_margin (Some Samples.refreshed_with_token))
              mode_0o600 Samples.saved 1700000000000 eq_refl eq_refl
              ltac:(vm_compute; reflexivity) ltac:(vm_compute; discriminate))
    as (Hcalls & _ & Hsuccess & _).
  assert (Hdue : clock (Samples.inside_margin (Some Samples.refreshed_with_token))
                 >= 1700000000000 - 5 * 60 * 1000
                 ∧ truthy (Samples.saved !! "refresh_token") = true)
    by (split; [vm_compute; discriminate | vm_compute; reflexivity]).
  destruct (Hsuccess Hdue Samples.refreshed_with_token eq_refl
              ltac:(vm_compute; reflexivity) eq_refl eq_refl) as (Hv & _ & Hc).
  split; [exact (Hcalls Hdue)|]. split; [exact Hv | exact Hc].
Defined.

Lemma fresh_credential_no_side_effects_witness :
  value (Samples.load Samples.fresh) = Ok true ∧
  refresh_calls (emitted (Samples.load Samples.fresh)) = 0%nat ∧
  file_writes (emitted (Samples.load Samples.fresh)) = [].
Proof.
  destruct (@fresh_credential_no_side_effects decimal_coercions Samples.fresh mode_0o600
              Samples.saved 1700000000000 eq_refl eq_refl
              ltac:(vm_compute; reflexivity) ltac:(vm_compute; discriminate)
              ltac:(vm_compute; reflexivity))
    as (Hv & Hcalls & Hwrites & _).
  split; [exact Hv|]. split; [exact Hcalls | exact Hwrites].
Defined.

Lemma missing_expiry_is_expired_witness :
  @isExpired decimal_coercions (clock Samples.no_expiry)
    (Samples.saved_without_expiry !! "expiry_date") = true ∧
  refresh_calls (emitted (Samples.load Samples.no_expiry)) = 1%nat.
Proof.
  destruct (@missing_expiry_is_expired decimal_coercions Samples.no_expiry mode_0o600
              Samples.saved_without_expiry eq_refl eq_refl
              ltac:(vm_compute; reflexivity))
    as (Hexpired & Hrefresh).
  split; [exact Hexpired|].
  exact (proj1 (Hrefresh ltac:(vm_compute; reflexivity))).
Defined.

Lemma load_never_throws_witness :
  value (Samples.load Samples.unreadable) = Ok false ∧
  value (Samples.load Samples.garbled) = Ok false ∧
  error_labels (emitted (Samples.load Samples.garbled)) = ["Error loading tokens:"] ∧
  value (Samples.load Samples.absent) = Ok false ∧
  error_labels (emitted (Samples.load Samples.absent)) = ["No token file found"].
Proof.
  destruct (@load_never_throws decimal_coercions Samples.unreadable) as (_ & _ & Hu).
  destruct (@load_never_throws decimal_coercions Samples.garbled) as (_ & _ & Hg).
  destruct (@load_never_throws decimal_coercions Samples.absent) as (_ & Ha & _).
  destruct (Hu 0 _ eq_refl (or_introl eq_refl)) as (Hu1 & _).
  destruct (Hg mode_0o600 _ eq_refl (or_intror eq_refl)) as (Hg1 & Hg2 & _).
  destruct (Ha eq_refl) as (Ha1 & Ha2).
  repeat apply conj; assumption.
Defined.

Lemma token_update_keeps_refresh_token_witness :
  ∃ updated : gmap string json,
    tokenFile (after (onTokens Samples.rotated Samples.fresh))
    = Present mode_0o600 (Json (JObj updated)) ∧
    updated !! "refresh_token" = Some (JStr "1//R") ∧
    updated = <["access_token" := JStr "ya29.rotated"]> Samples.saved.
Proof.
  destruct (token_update_keeps_refresh_token Samples.fresh mode_0o600 Samples.saved
              Samples.rotated (JStr "ya29.rotated") (JStr "1//R")
              eq_refl eq_refl eq_refl eq_refl
              ltac:(vm_compute; reflexivity) ltac:(vm_compute; reflexivity)
              ltac:(vm_compute; reflexivity))
    as (updated & _ & Hfile & _ & Hrt & _ & Hexact).
  exists updated. split; [exact Hfile|]. split; [exact Hrt | exact (Hexact eq_refl)].
Defined.

Lemma gate_precedes_every_tool_witness :
  ∃ message,
    value (Samples.tool_call "create-event" undefined Samples.without_auth_server)
    = Throw (Error message) ∧
    (message = authMessage (Some 3000) ∨ message = headless_message) ∧
    emitted (Samples.tool_call "create-event" undefined Samples.without_auth_server) = [].
Proof.
  destruct (gate_precedes_every_tool (AS:=option Z)
              Samples.no_tokens Samples.no_calendar Samples.any_arguments
              Samples.no_rendering "create-event" undefined Samples.without_auth_server)
    as (Hrejected & _).
  destruct (Hrejected tt tt eq_refl eq_refl) as (message & Hv & Hm & He & _).
  exists message. split; [exact Hv|]. split; [exact Hm | exact He].
Defined.

Lemma serving_gate_names_port_3000_witness :
  authServer (after (Samples.first_start Samples.before_main)) = Some (Some 3001) ∧
  value (Samples.tool_call "list-events" undefined
           (after (Samples.first_start Samples.before_main)))
  = Throw (Error (authMessage (Some 3000))).
Proof.
  assert (Hserving :
    serving (λ _, inr tt) (λ _, inr None) Samples.no_tokens Samples.no_tokens
            Samples.binds_3001 Samples.no_calendar Samples.any_arguments
            Samples.no_rendering (after (Samples.first_start Samples.before_main))).
  { apply (serving_started _ _ _ _ _ _ _ _ Samples.before_main _ eq_refl).
    vm_compute. reflexivity. }
  destruct (serving_gate_names_port_3000 _ _ _ _ _ _ _ _ _ Hserving) as (_ & Hgate).
  split; [vm_compute; reflexivity|].
  exact (proj1 (Hgate "list-events" undefined tt tt
                  ltac:(vm_compute; reflexivity) eq_refl)).
Defined.

(** * Further properties of the code *)

(** ** The token-update handler *)

(** X1.  The handler of the token-update notification never throws.  When
    the file cannot be read or parsed, and when it holds [null] while the
    notification has no refresh token to offer, nothing is written, the
    world is left as it was and the failure is logged under "Error saving
    updated tokens:". *)
Theorem notification_failure_is_contained (newTokens : jsobj) (w : world) :
  value (onTokens newTokens w) = Ok tt ∧
  (readable_document w = None ∨
   (readable_document w = Some JNull ∧ truthy (field newTokens "refresh_token") = false) →
   after (onTokens newTokens w) = w ∧
   file_writes (emitted (onTokens newTokens w)) = [] ∧
   error_labels (emitted (onTokens newTokens w)) = ["Error saving updated tokens:"]).
Proof.
  unfold readable_document. open_world w. run_io.
  destruct file as [|mode [|cur]]; cbv beta iota.
  - split; [reflexivity|]. intros _. by repeat split.
  - destruct (owner_can_read mode); cbv beta iota;
      (split; [reflexivity|]); intros _; by repeat split.
  - destruct (owner_can_read mode); cbv beta iota;
      [|split; [reflexivity|]; intros _; by repeat split].
    destruct (truthy (field newTokens "refresh_token")) eqn:Hrt; cbv beta iota.
    + destruct (owner_can_write mode); cbv beta iota delta [negb];
        [destruct ok|]; (split; [reflexivity|]);
        intros [?|[_ ?]]; discriminate.
    + destruct cur; cbv beta iota;
        try (destruct (owner_can_write mode); cbv beta iota delta [negb];
             [destruct ok|]; (split; [reflexivity|]);
             intros [?|[? _]]; discriminate).
      split; [reflexivity|]. intros _. by repeat split.
Qed.
(** The handler on a record it can read and replace. *)
Lemma onTokens_record (newTokens : jsobj) (w : world) (mode : Z) (cur : gmap string json) :
  tokenFile w = Present mode (Json (JObj cur)) →
  owner_can_read mode = true →
  owner_can_write mode = true →
  diskAccepts w = true →
  onTokens newTokens w =
  Run (Ok tt)
      (set_tokenFile (Present mode (Json (JObj (merged_record cur newTokens)))) w)
      [ReadFile; WriteFile (JObj (merged_record cur newTokens)) mode_0o600].
Proof.
  intros Hf Hr Hw Hd.
  rewrite (onTokens_run newTokens w mode (JObj cur)
             (if truthy (field newTokens "refresh_token")
              then field newTokens "refresh_token"
              else cur !! "refresh_token") Hf Hr)
    by (by destruct (truthy (field newTokens "refresh_token"))).
  by rewrite Hw, Hd.
Qed.

Lemma merged_record_lookup (cur : gmap string json) (newTokens : jsobj) (k : string) :
  merged_record cur newTokens !! k = merged_field cur newTokens k.
Proof.
  unfold merged_record, merged_field. rewrite lookup_omap.
  destruct (decide (k = "refresh_token")) as [->|Hne].
  - rewrite lookup_insert_eq. cbn.
    by destruct (truthy (field newTokens "refresh_token")).
  - rewrite lookup_insert_ne by done. rewrite lookup_union.
    destruct (newTokens !! k) as [v|] eqn:Hk; rewrite lookup_fmap.
    + by destruct (cur !! k).
    + by destruct (cur !! k).
Qed.

(** X2.  On a record that can be read and replaced, the handler leaves a
    record whose every field is decided key by key: [refresh_token] is the
    notification's when that is truthy and the stored one otherwise; any
    other key the notification has takes the notification's value (and
    disappears when that value is [undefined]); the remaining keys keep
    their stored value. *)
Theorem notification_merges_field_by_field
    (newTokens : jsobj) (w : world) (mode : Z) (cur : gmap string json) :
  tokenFile w = Present mode (Json (JObj cur)) →
  owner_can_read mode = true →
  owner_can_write mode = true →
  diskAccepts w = true →
  ∃ updated : gmap string json,
    value (onTokens newTokens w) = Ok tt ∧
    tokenFile (after (onTokens newTokens w)) = Present mode (Json (JObj updated)) ∧
    ∀ k, updated !! k = merged_field cur newTokens k.
Proof.
  intros Hf Hr Hw Hd. exists (merged_record cur newTokens).
  rewrite (onTokens_record newTokens w mode cur Hf Hr Hw Hd).
  split; [reflexivity|]. split; [reflexivity|].
  apply merged_record_lookup.
Qed.

(** X3.  Delivering the same notification a second time changes nothing:
    the file holds after two deliveries what it holds after one. *)
Theorem notification_is_idempotent
    (newTokens : jsobj) (w : world) (mode : Z) (cur : gmap string json) :
  tokenFile w = Present mode (Json (JObj cur)) →
  owner_can_read mode = true →
  owner_can_write mode = true →
  diskAccepts w = true →
  tokenFile (after (onTokens newTokens (after (onTokens newTokens w))))
  = tokenFile (after (onTokens newTokens w)).
Proof.
  intros Hf Hr Hw Hd.
  rewrite (onTokens_record newTokens w mode cur Hf Hr Hw Hd). cbn [after].
  open_world w.
  cbn [set_tokenFile tokenFile diskAccepts clock credentials listeners provider].
  match goal with
  | |- context [onTokens newTokens ?w'] =>
      rewrite (onTokens_record newTokens w' mode (merged_record cur newTokens)
                 eq_refl Hr Hw eq_refl)
  end.
  cbn [after tokenFile set_tokenFile]. do 3 f_equal.
  apply map_eq. intros k. rewrite !merged_record_lookup.
  unfold merged_field. destruct (decide (k = "refresh_token")) as [->|Hne].
  - destruct (truthy (field newTokens "refresh_token")) eqn:Hrt; [done|].
    rewrite merged_record_lookup. unfold merged_field.
    by rewrite decide_True, Hrt by done.
  - destruct (newTokens !! k) eqn:Hk; [done|].
    rewrite merged_record_lookup. unfold merged_field.
    rewrite decide_False by done. by rewrite Hk.
Qed.

(** ** Array indices never collide with the names the program reads *)

Lemma pretty_N_go_digit (x : N) (s : string) :
  (0 < x)%N → starts_with_digit (pretty_N_go x s) = true.
Proof.
  revert s. induction (N.lt_wf_0 x) as [x _ IH]. intros s Hx.
  rewrite pretty_N_go_step by done.
  destruct (decide (x `div` 10 = 0)%N) as [->|Hdiv].
  - rewrite pretty_N_go_0. unfold pretty_N_char.
    by repeat case_match.
  - apply IH; [by apply N.div_lt | by apply N.neq_0_lt_0].
Qed.

Lemma pretty_nat_digit (i : nat) : starts_with_digit (pretty i) = true.
Proof.
  unfold pretty, pretty_nat, pretty, pretty_N.
  case_decide; [reflexivity|]. apply pretty_N_go_digit. lia.
Qed.

Lemma indexed_named_key {A} (f : A → json) (l : list A) (k : string) :
  starts_with_digit k = false → indexed f l !! k = None.
Proof.
  intros Hk. unfold indexed. apply not_elem_of_list_to_map_1.
  intros Hin. apply list_elem_of_fmap in Hin as ([k' v] & -> & Hin).
  apply elem_of_lookup_imap in Hin as (i & x & [= -> ->] & _).
  cbn in Hk. by rewrite pretty_nat_digit in Hk.
Qed.

(** ** [loadSavedTokens] in every world *)

Section LoadEverywhere.
Context `{Coercions}.

(** X4.  A handler for the token-update notification is registered exactly
    when [loadSavedTokens] returns [true], one more on each such call; a
    call that returns [false] registers none. *)
Theorem listener_registered_exactly_on_success (w : world) :
  match value (loadSavedTokens w) with
  | Ok true => listeners (after (loadSavedTokens w)) = S (listeners w)
  | _ => listeners (after (loadSavedTokens w)) = listeners w
  end.
Proof.
  destruct (tokenFile w) as [|mode [|v]] eqn:Hf.
  - by rewrite (load_missing w Hf).
  - destruct (owner_can_read mode) eqn:Hr.
    + by rewrite (load_malformed w mode Hf Hr).
    + by rewrite (load_unreadable w mode _ Hf Hr).
  - destruct (owner_can_read mode) eqn:Hr;
      [|by rewrite (load_unreadable w mode _ Hf Hr)].
    destruct (passes_guard v) eqn:Hg;
      [|by rewrite (load_invalid_format w mode v Hf Hr Hg)].
    rewrite (load_object w mode v Hf Hr Hg).
    destruct (isExpired _ _ && _); [|by destruct w].
    rewrite refresh_and_persist_run.
    cbn [provider set_credentials].
    destruct (provider w) as [nt|]; [|by destruct w].
    destruct (truthy (field nt "access_token")); [|by destruct w].
    destruct (write_accepted _); by destruct w.
Qed.

(** X5.  In every world [loadSavedTokens] asks the provider at most once
    and writes the file at most once; a write happens only after a refresh
    that yielded an access token, and what is written is that response and
    nothing else.  Without a write the file is what it was. *)
Theorem load_writes_only_the_refresh_response (w : world) :
  (refresh_calls (emitted (loadSavedTokens w)) ≤ 1)%nat ∧
  match file_writes (emitted (loadSavedTokens w)) with
  | [] => tokenFile (after (loadSavedTokens w)) = tokenFile w
  | [(data, mode)] =>
      refresh_calls (emitted (loadSavedTokens w)) = 1%nat ∧
      ∃ newTokens,
        provider w = Some newTokens ∧
        truthy (field newTokens "access_token") = true ∧
        data = JSON_stringify newTokens
  | _ => False
  end.
Proof.
  destruct (tokenFile w) as [|mode [|v]] eqn:Hf.
  - rewrite (load_missing w Hf). cbn. split; [lia | done].
  - destruct (owner_can_read mode) eqn:Hr.
    + rewrite (load_malformed w mode Hf Hr). cbn. split; [lia | done].
    + rewrite (load_unreadable w mode _ Hf Hr). cbn. split; [lia | done].
  - destruct (owner_can_read mode) eqn:Hr;
      [|rewrite (load_unreadable w mode _ Hf Hr); cbn; split; [lia | done]].
    destruct (passes_guard v) eqn:Hg;
      [|rewrite (load_invalid_format w mode v Hf Hr Hg); cbn; split; [lia | done]].
    rewrite (load_object w mode v Hf Hr Hg).
    destruct (isExpired _ _ && _);
      [|cbn; split; [lia | by destruct w]].
    rewrite refresh_and_persist_run.
    cbn [provider set_credentials].
    destruct (provider w) as [nt|]; [|cbn; split; [lia | by destruct w]].
    destruct (truthy (field nt "access_token")) eqn:Hat;
      [|cbn; split; [lia | by destruct w]].
    destruct (write_accepted _); cbn; (split; [lia|]); split; eauto.
Qed.

(** X6.  Time only moves a credential towards expiry: whatever the stored
    [expiry_date] is, a credential found expired at one instant is found
    expired at every later one. *)
Theorem isExpired_is_monotone (now later : Z) (expiryDate : jsval) :
  now <= later →
  isExpired now expiryDate = true →
  isExpired later expiryDate = true.
Proof.
  intros Hle. unfold isExpired.
  destruct (truthy expiryDate); [|done].
  destruct (ToNumber expiryDate) as [e|]; [|done].
  rewrite !Z.geb_leb, !Z.leb_le. lia.
Qed.

(** X7.  A file holding JSON that is neither an object nor an array
    ([null], a boolean, a number, a string) is turned down as "Invalid token
    format": the result is [false], nothing is installed in the client, the
    provider is not asked and the world is left as it was. *)
Theorem non_object_document_is_rejected (w : world) (mode : Z) (v : json) :
  tokenFile w = Present mode (Json v) →
  owner_can_read mode = true →
  match v with JArr _ | JObj _ => False | _ => True end →
  value (loadSavedTokens w) = Ok false ∧
  after (loadSavedTokens w) = w ∧
  error_labels (emitted (loadSavedTokens w)) = ["Invalid token format"] ∧
  refresh_calls (emitted (loadSavedTokens w)) = 0%nat.
Proof.
  intros Hf Hr Hv.
  rewrite (load_invalid_format w mode v Hf Hr) by (by destruct v).
  by repeat split.
Qed.

(** X8.  A file holding a JSON array passes the format check, since
    [typeof] of an array is ['object']: whatever the array holds, no expiry
    date and no refresh token are found in it, the provider is not asked,
    nothing is written and the result is [true]. *)
Theorem array_document_is_accepted (w : world) (mode : Z) (items : list json) :
  tokenFile w = Present mode (Json (JArr items)) →
  owner_can_read mode = true →
  value (loadSavedTokens w) = Ok true ∧
  emitted (loadSavedTokens w) = [Access; ReadFile] ∧
  tokenFile (after (loadSavedTokens w)) = tokenFile w.
Proof.
  intros Hf Hr.
  rewrite (load_object w mode (JArr items) Hf Hr eq_refl).
  cbn [own_props]. rewrite !indexed_named_key by reflexivity.
  cbn [truthy andb]. rewrite andb_false_r. by destruct w.
Qed.

(** X9.  An [expiry_date] that is present but falsy ([null], [0], [false],
    the empty string) counts as expired at any time: with a truthy
    [refresh_token] the provider is asked exactly once. *)
Theorem falsy_expiry_is_expired (w : world) (mode : Z) (t : gmap string json) (v : json) :
  tokenFile w = Present mode (Json (JObj t)) →
  owner_can_read mode = true →
  t !! "expiry_date" = Some v →
  truthy_json v = false →
  truthy (t !! "refresh_token") = true →
  isExpired (clock w) (t !! "expiry_date") = true ∧
  refresh_calls (emitted (loadSavedTokens w)) = 1%nat.
Proof.
  intros Hf Hr He Hv Hrt.
  assert (Hexp : isExpired (clock w) (Some v) = true).
  { unfold isExpired. cbn [truthy]. by rewrite Hv. }
  rewrite (load_record w mode t Hf Hr), He, Hexp, Hrt. cbn [andb].
  split; [reflexivity|].
  destruct (provider w) as [nt|]; [|reflexivity].
  destruct (truthy (field nt "access_token")); [|reflexivity].
  by destruct (owner_can_write mode && diskAccepts w).
Qed.


(** X11.  After a load that refreshed and saved credentials whose
    [expiry_date] lies beyond the margin, a second load at the same instant
    is quiet: it returns [true], asks the provider for nothing and writes
    nothing. *)
Theorem second_load_after_refresh_is_quiet
    (w : world) (mode : Z) (t : gmap string json) (newTokens : jsobj) (e : Z) :
  tokenFile w = Present mode (Json (JObj t)) →
  owner_can_read mode = true →
  owner_can_write mode = true →
  diskAccepts w = true →
  isExpired (clock w) (t !! "expiry_date") = true →
  truthy (t !! "refresh_token") = true →
  provider w = Some newTokens →
  truthy (field newTokens "access_token") = true →
  field newTokens "expiry_date" = Some (JNum e) →
  0 <= clock w →
  clock w + 5 * 60 * 1000 < e →
  value (loadSavedTokens w) = Ok true ∧
  value (loadSavedTokens (after (loadSavedTokens w))) = Ok true ∧
  emitted (loadSavedTokens (after (loadSavedTokens w))) = [Access; ReadFile] ∧
  tokenFile (after (loadSavedTokens (after (loadSavedTokens w))))
  = tokenFile (after (loadSavedTokens w)).
Proof.
  intros Hf Hr Hw Hd He Hrt Hp Hat Hnew Hnow Hfresh.
  rewrite (load_record w mode t Hf Hr), He, Hrt, Hp, Hat, Hw, Hd.
  cbn [andb value after]. split; [reflexivity|].
  assert (Hexp : omap id newTokens !! "expiry_date" = Some (JNum e)).
  { rewrite lookup_omap. exact Hnew. }
  match goal with
  | |- context [loadSavedTokens ?w1] =>
      rewrite (load_record w1 mode (omap id newTokens))
        by (by destruct w)
  end.
  assert (Hclock : ∀ c f, clock (add_listener (set_credentials c (set_tokenFile f
                     (set_credentials (Some <$> t) w)))) = clock w) by (by destruct w).
  rewrite Hclock, Hexp, (isExpired_number _ _ Hnow).
  replace (e - 5 * 60 * 1000 <=? clock w) with false
    by (symmetry; apply Z.leb_gt; lia).
  by destruct w.
Qed.

End LoadEverywhere.

(** ** The dispatcher *)

Import Catalogue.
Import Switch.

Section DispatcherEverywhere.
Context {TM AS : Type}.
Variable new_TokenManager : OAuth2Client → exn + TM.
Variable new_AuthServer : OAuth2Client → exn + AS.
Variable tm_loadSavedTokens : TM → result bool * TM.
Variable tm_validateTokens : TM → result bool * TM.
Variable as_start : AS → result bool * AS.
Variable calendar_api : api_method → jsval → exn + jsval.
Variable zod_parse : schema → jsval → exn + json.
Variable render : api_method → jsval → exn + string.

Ltac split_dispatch :=
  repeat match goal with
         | |- context [zod_parse ?sc ?a] => destruct (zod_parse sc a)
         | |- context [calendar_api ?m ?a] => destruct (calendar_api m a)
         | |- context [prop_of ?c ?k] => destruct (prop_of c k)
         | |- context [render ?m ?v] => destruct (render m v)
         | |- context [strict_eq_string ?v ?k] => destruct (strict_eq_string v k)
         | _ => progress cbv beta iota
         end.

Local Abbreviation route := (dispatch (TM:=TM) (AS:=AS) calendar_api zod_parse render).
Local Abbreviation switch :=
  (tool_switch (TM:=TM) (AS:=AS) calendar_api zod_parse render).
Local Abbreviation handle :=
  (CallTool (AS:=AS) tm_validateTokens calendar_api zod_parse render).
Local Abbreviation start :=
  (main new_TokenManager new_AuthServer tm_loadSavedTokens as_start).

(** X12.  The [switch] of the handler, tool by tool.  A name that is none of
    the six cases is answered with the error "Unknown tool: <name>" and no
    request to the calendar.  A tool without arguments makes exactly one
    request, on its own method.  A tool with arguments first has them
    parsed by its schema: when the schema rejects them, the parser's error
    is what the handler throws and no request is made; otherwise exactly
    one request is made, on the tool's method. *)
Theorem dispatch_follows_route (name : string) (args : jsval) (p : process) :
  match tool_route name with
  | None =>
      route name args p =
      Run (Throw (Error ("Unknown tool: " +:+ name))) p
          [Dispatcher.ConsoleError "Error processing request:"]
  | Some (m, None) =>
      calendar_methods (emitted (route name args p)) = [m]
  | Some (m, Some sc) =>
      match zod_parse sc args with
      | inl e =>
          route name args p =
          Run (Throw e) p [Dispatcher.ConsoleError "Error processing request:"]
      | inr _ =>
          calendar_methods (emitted (route name args p)) = [m]
      end
  end.
Proof.
  unfold tool_route. run_dispatcher.
  repeat match goal with
         | |- context [String.eqb name ?s] => destruct (String.eqb name s)
         end;
    split_dispatch; reflexivity.
Qed.

(** The handler's [try] holds the [switch]; its [catch] logs and throws
    what it caught. *)
Lemma dispatch_is_guarded_switch (name : string) (args : jsval) :
  route name args =
  try_catch (switch name args)
    (λ error, Dispatcher.console_error "Error processing request:" ;; throw error).
Proof. reflexivity. Qed.

(** The [switch] itself changes no variable of the process and prints no
    error. *)
Lemma tool_switch_is_silent (name : string) (args : jsval) (p : process) :
  after (switch name args p) = p ∧
  logged_errors (emitted (switch name args p)) = [].
Proof.
  cbv beta iota zeta delta
    [tool_switch rendered calendar bind prepend ret throw emit gets lift
     value after emitted negb].
  repeat match goal with
         | |- context [String.eqb name ?s] => destruct (String.eqb name s)
         end;
    split_dispatch; by split.
Qed.

(** X13.  The [try]/[catch] around the [switch].  When the [switch] throws
    an error, whichever it is (a rejected argument, a rejected request, a
    response that cannot be rendered, an unknown tool), the handler throws
    that same error, after the events of the [switch] and one line printed
    under "Error processing request:".  When the [switch] returns, the
    handler returns the same result with the same events and prints
    nothing.  Either way the variables of the process are untouched. *)
Theorem dispatch_logs_what_it_rethrows (name : string) (args : jsval) (p : process) :
  after (route name args p) = p ∧
  match value (switch name args p) with
  | Throw e =>
      route name args p =
      Run (Throw e) p
          (emitted (switch name args p)
           ++ [Dispatcher.ConsoleError "Error processing request:"]) ∧
      logged_errors (emitted (route name args p)) = ["Error processing request:"]
  | Ok result =>
      route name args p =
      Run (Ok result) p (emitted (switch name args p)) ∧
      logged_errors (emitted (route name args p)) = []
  end.
Proof.
  split; [apply dispatch_keeps_process|].
  rewrite dispatch_is_guarded_switch. unfold try_catch.
  destruct (tool_switch_is_silent name args p) as [Hafter Hquiet].
  destruct (switch name args p) as [[result|e] p' evs].
  - cbn [value after emitted] in *. subst p'. by split.
  - cbn [value after emitted] in *. subst p'.
    cbv beta iota zeta delta
      [bind prepend Dispatcher.console_error emit throw value after emitted].
    cbn [app]. split; [reflexivity|].
    unfold logged_errors in *. rewrite omap_app, Hquiet. reflexivity.
Qed.

(** X14.  An error thrown by [validateTokens] itself leaves the handler as
    it is: nothing is logged, no request is made, and no
    authentication-required message replaces it. *)
Theorem validation_error_propagates
    (name : string) (args : jsval) (p : process) (t t' : TM) (e : exn) :
  tokenManager p = Some t →
  tm_validateTokens t = (Throw e, t') →
  handle name args p = Run (Throw e) (set_tokenManager t' p) [].
Proof.
  intros Ht Hv. destruct p as [kf oc tmo aso].
  cbn [tokenManager] in Ht. subst tmo. run_dispatcher. by rewrite Hv.
Qed.

(** [initializeOAuth2Client] reads the keys file once, changes nothing, and
    logs exactly when it throws. *)
Lemma initialize_outcome (p : process (TM:=TM) (AS:=AS)) :
  initializeOAuth2Client p =
  Run (value (initializeOAuth2Client p)) p
      (ReadKeys ::
       match value (initializeOAuth2Client p) with
       | Ok _ => []
       | Throw _ => [Dispatcher.ConsoleError "Error loading OAuth keys:"]
       end).
Proof.
  cbv beta iota zeta delta
    [initializeOAuth2Client try_catch bind prepend ret throw emit gets lift
     Dispatcher.console_error value after emitted app].
  destruct (keysFile p) as [|mode [|keys]]; cbv beta iota; try reflexivity.
  - by destruct (owner_can_read mode).
  - destruct (owner_can_read mode); cbv beta iota; [|reflexivity].
    destruct (prop keys "installed") as [e|installed]; cbv beta iota; [reflexivity|].
    destruct (prop_of installed "client_id") as [e|ci]; cbv beta iota; [reflexivity|].
    destruct (prop_of installed "client_secret") as [e|cs]; cbv beta iota; [reflexivity|].
    destruct (prop_of installed "redirect_uris") as [e|ru]; cbv beta iota; [reflexivity|].
    by destruct (prop_of ru "0").
Qed.

(** X15.  [main] always ends, never by an escaping exception: either the
    server is connected and serving, or the process has exited with code 1
    without ever connecting. *)
Theorem main_serves_or_exits_1 (p0 : process) :
  (value (start p0) = Ok Serving ∧ connected (emitted (start p0)) = true) ∨
  (value (start p0) = Ok (Exited 1) ∧ connected (emitted (start p0)) = false).
Proof.
  run_dispatcher. rewrite initialize_outcome.
  destruct (value (initializeOAuth2Client p0)) as [c|e]; cbv beta iota; [|by right].
  destruct p0 as [kf oc tmo aso]. cbv beta iota.
  destruct (new_TokenManager c) as [e|t]; cbv beta iota; [by right|].
  destruct (new_AuthServer c) as [e|a]; cbv beta iota; [by right|].
  destruct (tm_loadSavedTokens t) as [[[|]|e] t']; cbv beta iota;
    [by left| |by right].
  destruct (as_start a) as [[[|]|e] a']; cbv beta iota; by (left + right).
Qed.

(** X16.  A keys file that cannot be turned into a client is fatal: [main]
    exits with code 1 after logging under "Error loading OAuth keys:" and
    "Server startup failed:", with no token manager and no auth server
    constructed and the process variables as they were. *)
Theorem config_error_is_fatal (p0 : process) (e : exn) :
  value (initializeOAuth2Client (TM:=TM) (AS:=AS) p0) = Throw e →
  start p0 =
  Run (Ok (Exited 1)) p0
      [ReadKeys; Dispatcher.ConsoleError "Error loading OAuth keys:";
       Dispatcher.ConsoleError "Server startup failed:"].
Proof.
  intros He. run_dispatcher. rewrite initialize_outcome, He. reflexivity.
Qed.

(** X17.  When the saved tokens load, the auth server is constructed but
    not started: [main] connects at once, and the auth server object is in
    the state its constructor left it in. *)
Theorem auth_server_not_started_when_tokens_load
    (p0 : process) (c : OAuth2Client) (t t' : TM) (a : AS) :
  value (initializeOAuth2Client (TM:=TM) (AS:=AS) p0) = Ok c →
  new_TokenManager c = inr t →
  new_AuthServer c = inr a →
  tm_loadSavedTokens t = (Ok true, t') →
  start p0 =
  Run (Ok Serving) (Process (keysFile p0) (Some c) (Some t') (Some a))
      [ReadKeys; Connect;
       Dispatcher.ConsoleError "Google Calendar MCP Server running on stdio"].
Proof.
  intros Hc Ht Ha Hl. run_dispatcher.
  rewrite initialize_outcome, Hc. destruct p0 as [kf oc tmo aso].
  cbv beta iota. rewrite Ht. cbv beta iota. rewrite Ha. cbv beta iota.
  rewrite Hl. reflexivity.
Qed.

(** X18.  When no tokens load and the auth server does not start, [main]
    exits with code 1 without connecting; when it does start, [main]
    connects and serves with the auth server in the state [start] left. *)
Theorem auth_server_decides_first_start
    (p0 : process) (c : OAuth2Client) (t t' : TM) (a a' : AS) (started : bool) :
  value (initializeOAuth2Client (TM:=TM) (AS:=AS) p0) = Ok c →
  new_TokenManager c = inr t →
  new_AuthServer c = inr a →
  tm_loadSavedTokens t = (Ok false, t') →
  as_start a = (Ok started, a') →
  value (start p0) = Ok (if started then Serving else Exited 1) ∧
  connected (emitted (start p0)) = started ∧
  authServer (after (start p0)) = Some a' ∧
  tokenManager (after (start p0)) = Some t'.
Proof.
  intros Hc Ht Ha Hl Hs. run_dispatcher.
  rewrite initialize_outcome, Hc. destruct p0 as [kf oc tmo aso].
  cbv beta iota. rewrite Ht. cbv beta iota. rewrite Ha. cbv beta iota.
  rewrite Hl. cbv beta iota. rewrite Hs. by destruct started.
Qed.

(** X19.  With a readable keys file whose [installed] entry is an object,
    the client is built from [client_id], [client_secret] and the first
    entry of the [redirect_uris] array; an empty array gives a client
    without redirect URI, not an error. *)
Theorem client_uses_first_redirect_uri
    (p : process (TM:=TM) (AS:=AS)) (mode : Z)
    (keys installed : gmap string json) (uris : list json) :
  keysFile p = Present mode (Json (JObj keys)) →
  owner_can_read mode = true →
  keys !! "installed" = Some (JObj installed) →
  installed !! "redirect_uris" = Some (JArr uris) →
  initializeOAuth2Client p =
  Run (Ok (NewOAuth2Client (installed !! "client_id") (installed !! "client_secret")
             (head uris)))
      p [ReadKeys].
Proof.
  intros Hk Hr Hi Hu.
  cbv beta iota zeta delta
    [initializeOAuth2Client try_catch bind prepend ret throw emit gets lift
     Dispatcher.console_error value after emitted app].
  rewrite Hk. cbv beta iota. rewrite Hr. cbv beta iota.
  cbn [prop own_props]. rewrite Hi. cbv beta iota.
  cbn [prop_of prop own_props]. rewrite Hu. cbv beta iota.
  cbn [prop_of prop own_props].
  replace (indexed id uris !! "0") with (head uris); [reflexivity|].
  destruct uris as [|u rest]; [reflexivity|].
  unfold indexed. rewrite imap_cons. cbn [list_to_map foldr uncurry fst snd].
  change (pretty 0%nat) with "0". by rewrite lookup_insert_eq.
Qed.

End DispatcherEverywhere.

(** ** The text of the tool results *)

Import Rendering.

Lemma newlines_app (a b : string) : newlines (a +:+ b) = (newlines a + newlines b)%nat.
Proof.
  induction a as [|c a IH]; [done|].
  change (String c a +:+ b) with (String c (a +:+ b)).
  cbn [newlines]. rewrite IH. lia.
Qed.

Lemma newlines_concat (l : list string) :
  newlines (String.concat nl l) = (sum_list (newlines <$> l) + pred (length l))%nat.
Proof.
  induction l as [|x [|y l] IH]; [done| |].
  - cbn [String.concat fmap list_fmap sum_list sum_list_with length pred id]. lia.
  - change (String.concat nl (x :: y :: l)) with (x +:+ nl +:+ String.concat nl (y :: l)).
    rewrite !newlines_app, IH. change (newlines nl) with 1%nat.
    cbn [fmap list_fmap sum_list sum_list_with length pred id]. lia.
Qed.

Lemma newlines_or_text (v : nullable string) (fallback : string) :
  single_line v → newlines fallback = 0%nat → newlines (or_text v fallback) = 0%nat.
Proof.
  destruct v as [| |s]; cbn; try done.
  intros Hs Hf. by destruct (String.eqb s EmptyString).
Qed.

Lemma concat_nonempty (sep x : string) (l : list string) :
  x ≠ EmptyString → String.concat sep (x :: l) ≠ EmptyString.
Proof. destruct x; [done|]. by destruct l. Qed.

(** X20.  The text of [list-calendars] is empty exactly when there is no
    calendar to list, and when no summary and no id contains a line feed it
    has one line per calendar. *)
Theorem calendars_text_has_a_line_per_calendar (items : option (list CalendarListEntry)) :
  (calendars_text items = EmptyString ↔ default [] items = []) ∧
  (Forall (λ cal, single_line (cal_summary cal) ∧ single_line (cal_id cal))
          (default [] items) →
   newlines (calendars_text items) = pred (length (default [] items))).
Proof.
  unfold calendars_text. split.
  - destruct (default [] items) as [|cal l]; [done|]. split; [|done].
    intros Hempty. exfalso. revert Hempty. cbn [fmap list_fmap].
    apply concat_nonempty. unfold calendar_line.
    destruct (or_text (cal_summary cal) "Untitled"); done.
  - intros Hclean. rewrite newlines_concat, length_fmap.
    replace (sum_list (newlines <$> (calendar_line <$> default [] items))) with 0%nat;
      [done|].
    induction Hclean as [|cal l [Hs Hi] _ IH]; [done|].
    cbn [fmap list_fmap sum_list sum_list_with]. rewrite <-IH.
    unfold calendar_line. rewrite !newlines_app, !newlines_or_text by done.
    reflexivity.
Qed.

Lemma newlines_time_text (time : option EventTime) :
  clean_time time → newlines (time_text time) = 0%nat.
Proof.
  destruct time as [t|]; [|done]. intros [Hdt Hd]. cbn.
  apply newlines_or_text; [done|]. by apply newlines_or_text.
Qed.

Lemma newlines_attendees (l : list CalendarEventAttendee) :
  Forall clean_attendee l →
  newlines (String.concat ", " (attendee_text <$> l)) = 0%nat.
Proof.
  induction 1 as [|a [|b l] [He Hr] _ IH]; [done| |].
  - cbn. unfold attendee_text. by rewrite !newlines_app, !newlines_or_text.
  - change (String.concat ", " (attendee_text <$> a :: b :: l))
      with (attendee_text a +:+ ", " +:+ String.concat ", " (attendee_text <$> b :: l)).
    rewrite !newlines_app, IH. unfold attendee_text.
    by rewrite !newlines_app, !newlines_or_text.
Qed.

(** X21.  The block of an event in the text of [list-events], when none of
    its fields contains a line feed: a title line, a line for the start and
    one for the end, one more line each for a location and a colour that
    are given, and one more for the attendees whenever the event has an
    attendee list, even an empty one.  The block ends with a line feed. *)
Theorem event_block_lines (event : CalendarEvent) :
  clean_event event →
  newlines (event_text event) =
  (3 + (if present (location event) then 1 else 0)
     + (if present (colorId event) then 1 else 0)
     + match attendees event with Value _ => 1 | _ => 0 end)%nat.
Proof.
  intros (Hs & Hi & Hl & Hc & Hst & Hen & Hat).
  unfold event_text, locationInfo, colorInfo, attendeeList.
  rewrite !newlines_app, !newlines_time_text, !newlines_or_text by done.
  destruct (present (location event)), (present (colorId event));
    rewrite ?newlines_app, ?newlines_or_text by done;
    destruct (attendees event) as [| |l];
    rewrite ?newlines_app, ?newlines_attendees by done;
    reflexivity.
Qed.

(** X22.  A colour section has the title line followed by "No colors
    available" when there are no colours (none given, or an empty table),
    and otherwise by three lines per colour, provided ids and colour values
    contain no line feed. *)
Theorem color_section_lines (title : string)
    (colors : option (list (string * ColorDefinition))) :
  Forall (λ entry, newlines entry.1 = 0 ∧ newlines (background entry.2) = 0
                   ∧ newlines (foreground entry.2) = 0)%nat
         (default [] colors) →
  match default [] colors with
  | [] => formatColorSection title colors = title +:+ ":" +:+ nl +:+ "  No colors available"
  | entries =>
      newlines (formatColorSection title colors)
      = (newlines title + 3 * length entries)%nat
  end.
Proof.
  intros Hclean. destruct colors as [[|entry entries]|]; try reflexivity.
  cbn [default from_option id] in *. unfold formatColorSection.
  rewrite !newlines_app, newlines_concat, length_fmap.
  assert (Hsum : ∀ l : list (string * ColorDefinition),
            Forall (λ entry, newlines entry.1 = 0 ∧ newlines (background entry.2) = 0
                             ∧ newlines (foreground entry.2) = 0)%nat l →
            sum_list (newlines <$> (color_entry <$> l)) = (2 * length l)%nat).
  { induction 1 as [|e l (Hk & Hb & Hf) _ IH]; [done|].
    cbn [fmap list_fmap sum_list sum_list_with length]. rewrite IH.
    unfold color_entry. rewrite !newlines_app, Hk, Hb, Hf.
    change (newlines "  ID: ") with 0%nat.
    change (newlines "    Background: ") with 0%nat.
    change (newlines "    Foreground: ") with 0%nat.
    change (newlines nl) with 1%nat. cbn [id]. lia. }
  rewrite (Hsum _ Hclean).
  change (newlines ":") with 0%nat. change (newlines nl) with 1%nat.
  cbn [length pred]. lia.
Qed.

(** ** The advertised tools *)

(** X23.  The tools advertised by the list handler are exactly the names
    the call handler has a case for: every advertised tool is dispatched,
    and every other name is an unknown tool. *)
Theorem advertised_tools_are_the_dispatched_ones (name : string) :
  name ∈ tool_name <$> tools ↔ is_Some (tool_route name).
Proof.
  split.
  - intros Hin. cbn in Hin.
    repeat (apply elem_of_cons in Hin as [->|Hin]); try (by eexists).
    by apply elem_of_nil in Hin.
  - unfold tool_route.
    repeat match goal with
           | |- context [String.eqb name ?s] =>
               destruct (String.eqb_spec name s) as [->|_];
               [intros _; cbn; set_solver|]
           end.
    by intros [? [=]].
Qed.

(** X24.  For every advertised tool the advertised input schema and the zod
    schema its arguments are parsed with describe the same arguments: the
    same keys, the same required keys, and agreeing types key by key, down
    to the attendee objects.  The tools whose case parses no arguments
    advertise none. *)
Theorem advertised_schema_is_the_validated_one (t : tool) :
  t ∈ tools →
  match tool_route (tool_name t) with
  | Some (_, Some sc) =>
      agrees (inputSchema t) (shape_of sc) = true ∧
      (∀ k, k ∈ advertised_keys (inputSchema t) ↔ k ∈ zod_keys (shape_of sc)) ∧
      advertised_required (inputSchema t) = zod_required (shape_of sc)
  | Some (_, None) => inputSchema t = SObject [] []
  | None => False
  end.
Proof.
  intros Hin. unfold tools in Hin.
  repeat (apply elem_of_cons in Hin as [->|Hin]);
    try (by apply elem_of_nil in Hin);
    try reflexivity;
    (split; [vm_compute; reflexivity|]);
    (split; [|vm_compute; reflexivity]);
    intros k; cbn; rewrite !elem_of_cons, !elem_of_nil; tauto.
Qed.

(** ** Shutdown *)

Import Shutdown.

Section ShutdownPaths.
Context {TM AS : Type}.
Variable as_stop : AS → result unit * AS.
Variable tm_clearTokens : TM → result unit * TM.

(** X25.  [cleanup] stops the auth server before it clears the tokens, and
    only when each has been assigned; when neither call throws it ends in
    [process.exit(0)], having touched neither the keys file nor the OAuth
    client.  Called before [main] has assigned anything, it just exits. *)
Theorem cleanup_exits_0 (p : process (TM:=TM) (AS:=AS)) :
  match authServer p with Some a => (as_stop a).1 = Ok tt | None => True end →
  match tokenManager p with Some t => (tm_clearTokens t).1 = Ok tt | None => True end →
  cleanup as_stop tm_clearTokens p =
  Run (Ok (Exited 0))
      (Process (keysFile p) (oauth2Client p)
         ((λ t, (tm_clearTokens t).2) <$> tokenManager p)
         ((λ a, (as_stop a).2) <$> authServer p))
      [ConsoleLog "Cleaning up..."].
Proof.
  destruct p as [kf oc [t|] [a|]];
    cbv beta iota zeta delta
      [cleanup Dispatcher.console_log on_authServer on_tokenManager
       bind prepend ret emit gets value after emitted app
       keysFile oauth2Client tokenManager authServer
       set_tokenManager set_authServer];
    intros Ha Ht;
    cbn [fmap option_fmap option_map];
    try (destruct (as_stop a) as [[[]|?] ?]; [|discriminate]);
    try (destruct (tm_clearTokens t) as [[[]|?] ?]; [|discriminate]);
    reflexivity.
Qed.

(** X26.  When stopping the auth server throws, [cleanup] goes no further:
    the tokens are not cleared and [process.exit] is not reached. *)
Theorem cleanup_stops_at_a_failed_stop
    (p : process (TM:=TM) (AS:=AS)) (a a' : AS) (e : exn) :
  authServer p = Some a →
  as_stop a = (Throw e, a') →
  cleanup as_stop tm_clearTokens p =
  Run (Throw e) (set_authServer a' p) [ConsoleLog "Cleaning up..."].
Proof.
  intros Ha Hs. destruct p as [kf oc tmo aso]. cbn [authServer] in Ha. subst aso.
  cbv beta iota zeta delta
    [cleanup Dispatcher.console_log on_authServer on_tokenManager
     bind prepend ret emit gets value after emitted app
     keysFile oauth2Client tokenManager authServer
     set_tokenManager set_authServer].
  by rewrite Hs.
Qed.

End ShutdownPaths.

(** ** The further properties at concrete inputs *)

Lemma notification_failure_is_contained_witness :
  after (onTokens Samples.rotated Samples.garbled) = Samples.garbled ∧
  file_writes (emitted (onTokens Samples.rotated Samples.garbled)) = [] ∧
  after (onTokens Samples.rotated MoreSamples.null_document) = MoreSamples.null_document.
Proof.
  destruct (notification_failure_is_contained Samples.rotated Samples.garbled)
    as (_ & Hgarbled).
  destruct (notification_failure_is_contained Samples.rotated MoreSamples.null_document)
    as (_ & Hnull).
  destruct (Hgarbled (or_introl eq_refl)) as (Ha & Hw & _).
  assert (Hbare : truthy (field Samples.rotated "refresh_token") = false)
    by (vm_compute; reflexivity).
  destruct (Hnull (or_intror (conj eq_refl Hbare))) as (Hn & _).
  split; [exact Ha|]. split; [exact Hw | exact Hn].
Defined.

Lemma notification_merges_field_by_field_witness :
  ∃ updated : gmap string json,
    tokenFile (after (onTokens MoreSamples.rotated_both Samples.fresh))
    = Present mode_0o600 (Json (JObj updated)) ∧
    updated !! "refresh_token" = Some (JStr "1//S") ∧
    updated !! "scope" = Some (JStr "https://www.googleapis.com/auth/calendar").
Proof.
  destruct (notification_merges_field_by_field MoreSamples.rotated_both Samples.fresh
              mode_0o600 Samples.saved eq_refl eq_refl eq_refl eq_refl)
    as (updated & _ & Hfile & Hfields).
  exists updated. split; [exact Hfile|]. split.
  - rewrite (Hfields "refresh_token"). vm_compute. reflexivity.
  - rewrite (Hfields "scope"). vm_compute. reflexivity.
Defined.

Lemma notification_is_idempotent_witness :
  tokenFile (after (onTokens Samples.rotated (after (onTokens Samples.rotated Samples.fresh))))
  = tokenFile (after (onTokens Samples.rotated Samples.fresh)).
Proof.
  exact (notification_is_idempotent Samples.rotated Samples.fresh mode_0o600 Samples.saved
           eq_refl eq_refl eq_refl eq_refl).
Defined.

Lemma isExpired_is_monotone_witness :
  @isExpired decimal_coercions Samples.long_after (Some (JNum 1700000000000)) = true.
Proof.
  apply (@isExpired_is_monotone decimal_coercions Samples.near_expiry Samples.long_after);
    [vm_compute; discriminate | vm_compute; reflexivity].
Defined.

Lemma non_object_document_is_rejected_witness :
  value (Samples.load MoreSamples.null_document) = Ok false ∧
  error_labels (emitted (Samples.load MoreSamples.null_document)) = ["Invalid token format"].
Proof.
  destruct (@non_object_document_is_rejected decimal_coercions MoreSamples.null_document
              mode_0o600 JNull eq_refl eq_refl I) as (Hv & _ & Hl & _).
  split; [exact Hv | exact Hl].
Defined.

Lemma array_document_is_accepted_witness :
  value (Samples.load MoreSamples.array_document) = Ok true ∧
  emitted (Samples.load MoreSamples.array_document) = [Access; ReadFile].
Proof.
  destruct (@array_document_is_accepted decimal_coercions MoreSamples.array_document
              mode_0o600 [JStr "ya29.old"] eq_refl eq_refl) as (Hv & He & _).
  split; [exact Hv | exact He].
Defined.

Lemma falsy_expiry_is_expired_witness :
  refresh_calls (emitted (Samples.load MoreSamples.null_expiry)) = 1%nat.
Proof.
  exact (proj2 (@falsy_expiry_is_expired decimal_coercions MoreSamples.null_expiry
                  mode_0o600 MoreSamples.saved_null_expiry JNull eq_refl eq_refl
                  ltac:(vm_compute; reflexivity) eq_refl
                  ltac:(vm_compute; reflexivity))).
Defined.


Lemma second_load_after_refresh_is_quiet_witness :
  emitted (Samples.load (after (Samples.load
             (Samples.inside_margin (Some Samples.refreshed_with_token)))))
  = [Access; ReadFile].
Proof.
  destruct (@second_load_after_refresh_is_quiet decimal_coercions
              (Samples.inside_margin (Some Samples.refreshed_with_token))
              mode_0o600 Samples.saved Samples.refreshed_with_token 1700003600000
              eq_refl eq_refl eq_refl eq_refl
              ltac:(vm_compute; reflexivity) ltac:(vm_compute; reflexivity) eq_refl
              ltac:(vm_compute; reflexivity) ltac:(vm_compute; reflexivity)
              ltac:(vm_compute; discriminate) ltac:(vm_compute; reflexivity))
    as (_ & _ & He & _).
  exact He.
Defined.

Lemma validation_error_propagates_witness :
  CallTool (AS:=option Z) MoreSamples.validation_breaks Samples.no_calendar
    Samples.any_arguments Samples.no_rendering "list-events" undefined MoreSamples.listening
  = Run (Throw GaxiosError) MoreSamples.listening [].
Proof.
  exact (validation_error_propagates (AS:=option Z) MoreSamples.validation_breaks
           Samples.no_calendar Samples.any_arguments Samples.no_rendering
           "list-events" undefined MoreSamples.listening tt tt GaxiosError eq_refl eq_refl).
Defined.

Lemma config_error_is_fatal_witness :
  value (MoreSamples.start_with Samples.no_tokens Samples.binds_3001 MoreSamples.without_keys)
  = Ok (Exited 1).
Proof.
  unfold MoreSamples.start_with.
  rewrite (config_error_is_fatal (λ _, inr tt) (λ _, inr None) Samples.no_tokens
             Samples.binds_3001 MoreSamples.without_keys (SystemError "ENOENT") eq_refl).
  reflexivity.
Defined.

Lemma auth_server_not_started_when_tokens_load_witness :
  authServer (after (MoreSamples.start_with MoreSamples.tokens_found Samples.binds_3001
                       Samples.before_main)) = Some None.
Proof.
  unfold MoreSamples.start_with.
  rewrite (auth_server_not_started_when_tokens_load (λ _, inr tt) (λ _, inr None)
             MoreSamples.tokens_found Samples.binds_3001 Samples.before_main
             MoreSamples.sample_client tt tt None
             ltac:(vm_compute; reflexivity) eq_refl eq_refl eq_refl).
  reflexivity.
Defined.

Lemma auth_server_decides_first_start_witness :
  value (MoreSamples.start_with Samples.no_tokens MoreSamples.refuses_to_start
           Samples.before_main) = Ok (Exited 1) ∧
  value (MoreSamples.start_with Samples.no_tokens Samples.binds_3001 Samples.before_main)
  = Ok Serving.
Proof.
  split.
  - exact (proj1 (auth_server_decides_first_start (λ _, inr tt) (λ _, inr None)
                    Samples.no_tokens MoreSamples.refuses_to_start Samples.before_main
                    MoreSamples.sample_client tt tt None None false
                    ltac:(vm_compute; reflexivity) eq_refl eq_refl eq_refl eq_refl)).
  - exact (proj1 (auth_server_decides_first_start (λ _, inr tt) (λ _, inr None)
                    Samples.no_tokens Samples.binds_3001 Samples.before_main
                    MoreSamples.sample_client tt tt None (Some 3001) true
                    ltac:(vm_compute; reflexivity) eq_refl eq_refl eq_refl eq_refl)).
Defined.

Lemma client_uses_first_redirect_uri_witness :
  value (initializeOAuth2Client Samples.before_main) = Ok MoreSamples.sample_client.
Proof.
  rewrite (client_uses_first_redirect_uri Samples.before_main mode_0o600
             MoreSamples.keys_record MoreSamples.installed_entry
             [JStr "http://localhost"]
             eq_refl eq_refl ltac:(vm_compute; reflexivity) ltac:(vm_compute; reflexivity)).
  vm_compute. reflexivity.
Defined.

Lemma calendars_text_has_a_line_per_calendar_witness :
  Rendering.newlines (Rendering.calendars_text (Some MoreSamples.two_calendars)) = 1%nat ∧
  Rendering.calendars_text None = EmptyString.
Proof.
  split.
  - apply (proj2 (calendars_text_has_a_line_per_calendar (Some MoreSamples.two_calendars))).
    repeat constructor.
  - by apply (proj1 (calendars_text_has_a_line_per_calendar None)).
Defined.

Lemma event_block_lines_witness :
  Rendering.newlines (Rendering.event_text MoreSamples.meeting) = 5%nat.
Proof.
  apply (event_block_lines MoreSamples.meeting). repeat split; constructor.
Defined.

Lemma color_section_lines_witness :
  Rendering.newlines
    (Rendering.formatColorSection "Event Colors" (Some MoreSamples.two_colors)) = 6%nat.
Proof.
  apply (color_section_lines "Event Colors" (Some MoreSamples.two_colors)).
  repeat constructor.
Defined.

Lemma advertised_tools_are_the_dispatched_ones_witness :
  is_Some (tool_route "update-event") ∧ "list-colors" ∈ tool_name <$> tools.
Proof.
  split.
  - apply (proj1 (advertised_tools_are_the_dispatched_ones "update-event")).
    cbn. set_solver.
  - apply (proj2 (advertised_tools_are_the_dispatched_ones "list-colors")). by eexists.
Defined.

Lemma advertised_schema_is_the_validated_one_witness :
  advertised_required
    (SObject
       [("calendarId", SString "ID of the calendar containing the event");
        ("eventId", SString "ID of the event to delete")]
       ["calendarId"; "eventId"])
  = zod_required (shape_of DeleteEventArgumentsSchema).
Proof.
  apply (advertised_schema_is_the_validated_one
           (Tool "delete-event" "Delete a calendar event"
              (SObject
                 [("calendarId", SString "ID of the calendar containing the event");
                  ("eventId", SString "ID of the event to delete")]
                 ["calendarId"; "eventId"]))).
  unfold tools. set_solver.
Defined.

Lemma cleanup_exits_0_witness :
  value (cleanup MoreSamples.stops MoreSamples.clears MoreSamples.listening) = Ok (Exited 0) ∧
  value (cleanup MoreSamples.stops MoreSamples.clears MoreSamples.without_keys) = Ok (Exited 0).
Proof.
  split.
  - by rewrite (cleanup_exits_0 MoreSamples.stops MoreSamples.clears MoreSamples.listening
                  eq_refl eq_refl).
  - by rewrite (cleanup_exits_0 MoreSamples.stops MoreSamples.clears MoreSamples.without_keys
                  I I).
Defined.

Lemma cleanup_stops_at_a_failed_stop_witness :
  cleanup MoreSamples.stop_fails MoreSamples.clears MoreSamples.listening
  = Run (Throw (SystemError "EADDRNOTAVAIL")) MoreSamples.listening
        [ConsoleLog "Cleaning up..."].
Proof.
  exact (cleanup_stops_at_a_failed_stop MoreSamples.stop_fails MoreSamples.clears
           MoreSamples.listening (Some 3001) (Some 3001) (SystemError "EADDRNOTAVAIL")
           eq_refl eq_refl).
Defined.
